(** * SocialNetwork: the user repository ([src/repositories/user.py])

    A shallow embedding of [UserRepository], the class that holds every
    query the user endpoints send to the document database, and the
    properties of it that the specification states.

    The database is MongoDB reached through pymongo; a collection is kept
    here as the list of its documents in storage order, and the three driver
    calls the repository uses ([find_one], [find_one_and_update],
    [find_one_and_delete]) act on the first document that matches the
    filter, as the driver does.  The GridFS bucket [imgs_profile] is a finite
    map from object ids to file contents. *)

From Stdlib Require Import ZArith DecimalString.
From stdpp Require Import base option list strings gmap.

Local Open Scope string_scope.
Local Open Scope Z_scope.
Local Open Scope list_scope.

(** ** Python outcomes *)

(** The exceptions the repository can meet.  [HTTPException] is fastapi's,
    [TypeError] is what subscripting [None] raises, [InvalidId] is bson's,
    [DuplicateKeyError] pymongo's, and [PasswordError] stands for whatever
    the password hasher raises. *)
Inductive exn : Type :=
  | HTTPException (status_code : Z) (detail : string)
  | TypeError
  | InvalidId
  | DuplicateKeyError
  | PasswordError.

(** A call either returns a value or raises. *)
Inductive result (A : Type) : Type :=
  | Ok (a : A)
  | Raise (e : exn).
Arguments Ok {A} a.
Arguments Raise {A} e.

(** [fastapi.status] *)
Definition HTTP_401_UNAUTHORIZED : Z := 401.
Definition HTTP_404_NOT_FOUND : Z := 404.
Definition HTTP_409_CONFLICT : Z := 409.

(** ** Documents *)

(** [datetime.datetime] values, as an instant on the clock. *)
Definition datetime := Z.

(** A document of the [users] collection ([models.user.User] after
    [jsonable_encoder]).  The profile attributes may be absent ([None]);
    [age] is stored as text, see [update]. *)
Record User : Type := mkUser {
  _id : string;
  username : string;
  hashed_password : string;
  name : option string;
  surname : option string;
  bio : option string;
  age : option string;
  gender : option string;
  email : option string;
  profile_image : string;
  created_at : datetime;
  updated_at : datetime;
  subscriptions : list string;
  subscribers : list string;
  liked_posts : list string
}.

(** Modelled from the spec: [models.user.UserIn] is not among the sources.
    The spec calls the argument of [update] a partial set of the fields
    name, surname, bio, age, gender and email, so each attribute may be
    missing (Python [None]); [age] is a number, which [update] renders with
    [str]. *)
Record UserIn : Type := mkUserIn {
  in_name : option string;
  in_surname : option string;
  in_bio : option string;
  in_age : option Z;
  in_gender : option string;
  in_email : option string
}.

(** Modelled from the spec: [models.post.Post] is not among the sources.
    The repository reads and writes only [_id] and [likes]; the other
    attributes are the ones the spec lists for a post. *)
Record Post : Type := mkPost {
  post_id : string;
  post_user_id : string;
  post_image : string;
  post_description : string;
  likes : Z;
  post_created_at : datetime
}.

(** Modelled from the spec: [models.comment.Comment] and the place where
    comments are kept are not among the sources.  The spec gives a comment a
    parent post, an author, a text and a creation time, stored apart from
    the users. *)
Record Comment : Type := mkComment {
  comment_id : string;
  comment_post_id : string;
  comment_user_id : string;
  comment_text : string;
  comment_created_at : datetime
}.

(** ** The driver's collection calls

    A collection is the list of its documents in storage order. *)
Section Collection.
Context {D : Type}.

(** [collection.find_one(filter)]: the first match, or [None]. *)
Fixpoint find_one (q : D -> bool) (c : list D) : option D :=
  match c with
  | [] => None
  | d :: c' => if q d then Some d else find_one q c'
  end.

(** [collection.find_one_and_update(filter, update)]: the first match is
    rewritten in place; nothing happens when no document matches. *)
Fixpoint find_one_and_update (q : D -> bool) (upd : D -> D) (c : list D)
  : list D :=
  match c with
  | [] => []
  | d :: c' =>
      if q d then upd d :: c' else d :: find_one_and_update q upd c'
  end.

(** [collection.find_one_and_delete(filter)]: the first match is removed. *)
Fixpoint find_one_and_delete (q : D -> bool) (c : list D) : list D :=
  match c with
  | [] => []
  | d :: c' => if q d then c' else d :: find_one_and_delete q c'
  end.

(** [list(collection.find(limit=limit))]: no filter, no sort, no skip.
    For the driver a limit of 0 means no limit, and a negative limit
    stands for its absolute value. *)
Definition find (limit : Z) (c : list D) : list D :=
  if limit =? 0 then c else take (Z.to_nat (Z.abs limit)) c.
End Collection.

(** The update operators on an array field. *)
Definition push (x : string) (l : list string) : list string := l ++ [x].
Definition pull (x : string) (l : list string) : list string :=
  filter (λ y, y ≠ x) l.

(** Filters. *)
Definition by_id (i : string) (u : User) : bool := bool_decide (_id u = i).
Definition by_username (n : string) (u : User) : bool :=
  bool_decide (username u = n).
Definition by_email (e : string) (u : User) : bool :=
  bool_decide (email u = Some e).
Definition by_post_id (i : string) (p : Post) : bool :=
  bool_decide (post_id p = i).

(** The [$set], [$push], [$pull] and [$inc] documents the repository sends. *)
Definition set_profile (new_name new_surname new_bio : option string)
    (new_age : string) (new_gender new_email : option string) (u : User)
  : User :=
  mkUser (_id u) (username u) (hashed_password u)
    new_name new_surname new_bio (Some new_age) new_gender new_email
    (profile_image u) (created_at u) (updated_at u)
    (subscriptions u) (subscribers u) (liked_posts u).

Definition set_profile_image (file_id : string) (u : User) : User :=
  mkUser (_id u) (username u) (hashed_password u)
    (name u) (surname u) (bio u) (age u) (gender u) (email u)
    file_id (created_at u) (updated_at u)
    (subscriptions u) (subscribers u) (liked_posts u).

Definition on_subscriptions (f : list string -> list string) (u : User)
  : User :=
  mkUser (_id u) (username u) (hashed_password u)
    (name u) (surname u) (bio u) (age u) (gender u) (email u)
    (profile_image u) (created_at u) (updated_at u)
    (f (subscriptions u)) (subscribers u) (liked_posts u).

Definition on_subscribers (f : list string -> list string) (u : User)
  : User :=
  mkUser (_id u) (username u) (hashed_password u)
    (name u) (surname u) (bio u) (age u) (gender u) (email u)
    (profile_image u) (created_at u) (updated_at u)
    (subscriptions u) (f (subscribers u)) (liked_posts u).

Definition on_liked_posts (f : list string -> list string) (u : User)
  : User :=
  mkUser (_id u) (username u) (hashed_password u)
    (name u) (surname u) (bio u) (age u) (gender u) (email u)
    (profile_image u) (created_at u) (updated_at u)
    (subscriptions u) (subscribers u) (f (liked_posts u)).

Definition inc_likes (n : Z) (p : Post) : Post :=
  mkPost (post_id p) (post_user_id p) (post_image p) (post_description p)
    (likes p + n) (post_created_at p).

(** Python's [str] on an optional integer. *)
Definition py_str (a : option Z) : string :=
  match a with
  | None => "None"
  | Some z => NilZero.string_of_int (Z.to_int z)
  end.

(** ** The database *)

(** A bson object id is a 12-byte value, kept as the number it encodes. *)
Definition object_id := N.

(** The write commands sent to the server, oldest first. *)
Inductive command : Type :=
  | insert_user (i : string)
  | update_user (i : string)
  | delete_user (i : string)
  | update_post (i : string)
  | delete_image (o : object_id).

(** [self.database]: the collections, the GridFS bucket of profile images,
    and the record of the writes made so far. *)
Record Database : Type := mkDatabase {
  users : list User;
  posts : list Post;
  comments : list Comment;
  imgs_profile : gmap N (list Byte.byte);
  sent : list command
}.

Definition with_users (f : list User -> list User) (c : command)
    (db : Database) : Database :=
  mkDatabase (f (users db)) (posts db) (comments db) (imgs_profile db)
    (sent db ++ [c]).

Definition with_posts (f : list Post -> list Post) (c : command)
    (db : Database) : Database :=
  mkDatabase (users db) (f (posts db)) (comments db) (imgs_profile db)
    (sent db ++ [c]).

Definition with_imgs_profile
    (f : gmap N (list Byte.byte) -> gmap N (list Byte.byte)) (c : command)
    (db : Database) : Database :=
  mkDatabase (users db) (posts db) (comments db) (f (imgs_profile db))
    (sent db ++ [c]).

(** ** Methods run against the database: state and exceptions *)

Definition M (A : Type) : Type := Database -> result A * Database.

Definition ret {A} (a : A) : M A := λ db, (Ok a, db).
Definition raise {A} (e : exn) : M A := λ db, (Raise e, db).
Definition bind {A B} (m : M A) (k : A -> M B) : M B :=
  λ db, match m db with
        | (Ok a, db') => k a db'
        | (Raise e, db') => (Raise e, db')
        end.
(** [try: m except: h] with a bare [except]. *)
Definition try_except {A} (m : M A) (h : M A) : M A :=
  λ db, match m db with
        | (Ok a, db') => (Ok a, db')
        | (Raise _, db') => h db'
        end.
Definition read {A} (f : Database -> A) : M A := λ db, (Ok (f db), db).
Definition write (f : Database -> Database) : M unit := λ db, (Ok tt, f db).
Definition lift {A} (r : result A) : M A := λ db, (r, db).

Notation "x <- m ;; k" := (bind m (λ x, k))
  (at level 100, m at next level, right associativity).
Notation "m ;; k" := (bind m (λ _, k))
  (at level 100, right associativity).

(** ** The repository *)

(** [core.config.Settings], of which the repository reads one attribute. *)
Record Settings : Type := mkSettings {
  DEFAULT_PROFILE_IMAGE : string
}.

(** What [signup] hands back: the created document, or an exception object
    (the method returns it, it does not raise it). *)
Inductive signup_return : Type :=
  | created (u : option User)
  | refused (e : exn).

(** The two relationship fields [__get_sub_helper__] is called with. *)
Inductive what_need : Type :=
  | subscribers_field
  | subscriptions_field.

(** [user[what_need]] *)
Definition field (w : what_need) (u : User) : list string :=
  match w with
  | subscribers_field => subscribers u
  | subscriptions_field => subscriptions u
  end.

(** Queries and writes on the two collections and on the bucket. *)
Definition users_find_one (q : User -> bool) : M (option User) :=
  read (λ db, find_one q (users db)).

Definition users_find_one_and_update (i : string) (upd : User -> User)
  : M unit :=
  write (with_users (find_one_and_update (by_id i) upd) (update_user i)).

Definition users_find_one_and_delete (i : string) : M unit :=
  write (with_users (find_one_and_delete (by_id i)) (delete_user i)).

(** [insert_one]: the [_id] index is unique, so a second document with the
    same [_id] is refused; a new document goes last in storage order. *)
Definition users_insert_one (u : User) : M string :=
  λ db, match find_one (by_id (_id u)) (users db) with
        | Some _ => (Raise DuplicateKeyError, db)
        | None =>
            (Ok (_id u), with_users (λ c, c ++ [u]) (insert_user (_id u)) db)
        end.

Definition posts_find_one (q : Post -> bool) : M (option Post) :=
  read (λ db, find_one q (posts db)).

Definition posts_find_one_and_update (i : string) (upd : Post -> Post)
  : M unit :=
  write (with_posts (find_one_and_update (by_post_id i) upd) (update_post i)).

(** [gridfs.GridFS.delete]: deleting a file that is not there succeeds. *)
Definition imgs_profile_delete (o : object_id) : M unit :=
  write (with_imgs_profile (delete o) (delete_image o)).

(** [obj[key]] on the result of a [find_one]: [None] is not subscriptable. *)
Definition getitem {A} (o : option User) (f : User -> A) : M A :=
  match o with
  | Some u => ret (f u)
  | None => raise TypeError
  end.

Section Repository.
(** The collaborators that are not part of the sources: the settings, the
    password hasher [core.auth.Auth.encode_password], bson's [ObjectId]
    constructor on text, and the values [models.user.User] gives to the
    attributes that [create] does not pass. *)
Variable settings : Settings.
Variable encode_password : string -> result string.
Variable ObjectId : string -> result object_id.
Variable User_defaults : User.

(** [get_all(limit, skip)]; [skip] is accepted and not used. *)
Definition get_all (limit : Z) (skip : Z) : M (list User) :=
  read (λ db, find limit (users db)).

Definition get_by_id (i : string) : M (option User) :=
  user <- users_find_one (by_id i) ;;
  match user with
  | Some _ => ret user
  | None =>
      raise (HTTPException HTTP_404_NOT_FOUND
               ("User with ID " +:+ i +:+ " not found"))
  end.

(** [create(_user)]: [_user] holds the username and the hashed password.
    [inserted_id] is the identifier the new document gets, [now1] and
    [now2] what the two calls of [datetime.utcnow()] return. *)
Definition create (_username _hashed_password : string)
    (inserted_id : string) (now1 now2 : datetime) : M (option User) :=
  let user :=
    mkUser inserted_id _username _hashed_password
      (name User_defaults) (surname User_defaults) (bio User_defaults)
      (age User_defaults) (gender User_defaults) (email User_defaults)
      (profile_image User_defaults) now1 now2
      (subscriptions User_defaults) (subscribers User_defaults)
      (liked_posts User_defaults) in
  let user := set_profile_image (DEFAULT_PROFILE_IMAGE settings) user in
  new_user <- users_insert_one user ;;
  users_find_one (by_id new_user).

Definition update (user_id : string) (_user : UserIn) : M (option User) :=
  users_find_one_and_update user_id
    (set_profile (in_name _user) (in_surname _user) (in_bio _user)
       (py_str (in_age _user)) (in_gender _user) (in_email _user)) ;;
  users_find_one (by_id user_id).

Definition get_by_email (e : string) : M (option User) :=
  user <- users_find_one (by_email e) ;;
  match user with
  | Some _ => ret user
  | None =>
      raise (HTTPException HTTP_404_NOT_FOUND
               ("User with email: " +:+ e +:+ " not found"))
  end.

Definition update_profile_image (user_id file_id : string)
  : M (option User) :=
  user <- users_find_one (by_id user_id) ;;
  current <- getitem user profile_image ;;
  (if bool_decide (current ≠ DEFAULT_PROFILE_IMAGE settings)
   then o <- lift (ObjectId current) ;; imgs_profile_delete o
   else ret tt) ;;
  users_find_one_and_update user_id (set_profile_image file_id) ;;
  users_find_one (by_id user_id).

Definition delete (user_id : string) : M unit :=
  users_find_one_and_delete user_id.

Definition subscribe (user_id sub_user_id : string) : M unit :=
  users_find_one_and_update user_id (on_subscriptions (push sub_user_id)) ;;
  users_find_one_and_update sub_user_id (on_subscribers (push user_id)).

Definition unsubsribe (user_id sub_user_id : string) : M unit :=
  users_find_one_and_update user_id (on_subscriptions (pull sub_user_id)) ;;
  users_find_one_and_update sub_user_id (on_subscribers (pull user_id)).

(** The loop of [__get_sub_helper__]: one lookup per stored id, each
    result appended to [res] whatever it is. *)
Fixpoint for_u_id (ids : list string) (res : list (option User))
  : M (list (option User)) :=
  match ids with
  | [] => ret res
  | u_id :: ids' =>
      _user <- users_find_one (by_id u_id) ;;
      for_u_id ids' (res ++ [_user])
  end.

Definition __get_sub_helper__ (user_id : string) (w : what_need)
  : M (list (option User)) :=
  user <- users_find_one (by_id user_id) ;;
  ids <- getitem user (field w) ;;
  for_u_id ids [].

Definition get_subscribers (user_id : string) : M (list (option User)) :=
  __get_sub_helper__ user_id subscribers_field.

Definition get_subscriptions (user_id : string) : M (list (option User)) :=
  __get_sub_helper__ user_id subscriptions_field.

Definition check_username (n : string) : M bool :=
  user <- users_find_one (by_username n) ;;
  match user with
  | None => ret false
  | Some _ => ret true
  end.

Definition get_by_username (n : string) : M (option User) :=
  users_find_one (by_username n).

Definition signup (n password : string)
    (inserted_id : string) (now1 now2 : datetime) : M signup_return :=
  taken <- check_username n ;;
  if (taken : bool)
  then ret (refused (HTTPException 401 "Account already exists"))
  else
    try_except
      (hashed <- lift (encode_password password) ;;
       user <- create n hashed inserted_id now1 now2 ;;
       ret (created user))
      (ret (refused (HTTPException 401 "Failed to signup user"))).

Definition set_like (p_id user_id : string) : M (option Post) :=
  users_find_one_and_update user_id (on_liked_posts (push p_id)) ;;
  posts_find_one_and_update p_id (inc_likes 1) ;;
  posts_find_one (by_post_id p_id).

Definition unset_like (p_id user_id : string) : M (option Post) :=
  users_find_one_and_update user_id (on_liked_posts (pull p_id)) ;;
  posts_find_one_and_update p_id (inc_likes (-1)) ;;
  posts_find_one (by_post_id p_id).
End Repository.


(** An update keeps the identifier of the document it rewrites. *)
Definition keeps_id (upd : User -> User) : Prop := ∀ u, _id (upd u) = _id u.

(** ** Sample data *)

Definition sample_settings : Settings := mkSettings "default.png".

Definition sample_defaults : User :=
  mkUser "" "" "" None None None None None None "" 0 0 [] [] [].

Definition alice : User :=
  mkUser "u1" "alice" "h-alice" (Some "Alice") None None None None None
    "default.png" 10 10 ["u2"; "u9"] [] ["p1"].

Definition bob : User :=
  mkUser "u2" "bob" "h-bob" None None None None None None
    "65f0c0ffee65f0c0ffee65f0" 20 20 [] ["u1"] [].

Definition carol : User :=
  mkUser "u3" "carol" "h-carol" None None None None None None
    "default.png" 30 30 [] [] [].

Definition p1 : Post := mkPost "p1" "u2" "img-1" "first" 1 40.
Definition p2 : Post := mkPost "p2" "u1" "img-2" "second" 0 50.

Definition c1 : Comment := mkComment "c1" "p1" "u1" "nice" 60.

Definition bob_image : object_id := 7%N.

Definition sample_db : Database :=
  mkDatabase [alice; bob; carol] [p1; p2] [c1] {[ bob_image := [] ]} [].

(** The sample database after [update_profile_image("u3", "avatar.png")]:
    carol's reference is not the default one and is no object id. *)
Definition unparsable_carol : User :=
  mkUser "u3" "carol" "h-carol" None None None None None None
    "avatar.png" 30 30 [] [] [].

Definition unparsable_db : Database :=
  mkDatabase [alice; bob; unparsable_carol] [p1; p2] [c1]
    {[ bob_image := [] ]} [update_user "u3"].

Definition sample_encode_password (password : string) : result string :=
  if bool_decide (password = "") then Raise PasswordError
  else Ok ("hashed:" +:+ password).

Definition sample_ObjectId (s : string) : result object_id :=
  if bool_decide (s = "65f0c0ffee65f0c0ffee65f0") then Ok bob_image
  else Raise InvalidId.

(** A call signals an HTTP error of a given status when it raises, or hands
    back, an [HTTPException] with that status. *)
Definition signals (status : Z) (r : result signup_return) : Prop :=
  ∃ detail, r = Raise (HTTPException status detail) ∨
            r = Ok (refused (HTTPException status detail)).

(** ** The rest of the repository *)

(** The [$set] documents of the narrow profile edits. *)
Definition set_name_surname (new_name new_surname : string) (u : User)
  : User :=
  mkUser (_id u) (username u) (hashed_password u)
    (Some new_name) (Some new_surname) (bio u) (age u) (gender u) (email u)
    (profile_image u) (created_at u) (updated_at u)
    (subscriptions u) (subscribers u) (liked_posts u).

Definition set_username (new_username : string) (u : User) : User :=
  mkUser (_id u) new_username (hashed_password u)
    (name u) (surname u) (bio u) (age u) (gender u) (email u)
    (profile_image u) (created_at u) (updated_at u)
    (subscriptions u) (subscribers u) (liked_posts u).

Definition set_bio (new_bio : string) (u : User) : User :=
  mkUser (_id u) (username u) (hashed_password u)
    (name u) (surname u) (Some new_bio) (age u) (gender u) (email u)
    (profile_image u) (created_at u) (updated_at u)
    (subscriptions u) (subscribers u) (liked_posts u).

(** The fields none of the three narrow edits names. *)
Definition untouched_by_narrow_edits (u u' : User) : Prop :=
  _id u' = _id u ∧ hashed_password u' = hashed_password u ∧
  age u' = age u ∧ gender u' = gender u ∧ email u' = email u ∧
  profile_image u' = profile_image u ∧
  created_at u' = created_at u ∧ updated_at u' = updated_at u ∧
  subscriptions u' = subscriptions u ∧ subscribers u' = subscribers u ∧
  liked_posts u' = liked_posts u.

(** What [login] hands back: the stored document, or an exception object
    (returned, as in [signup]). *)
Inductive login_return : Type :=
  | logged_in (u : option User)
  | rejected (e : exn).

Definition update_name_surname (user_id new_name new_surname : string)
  : M (option User) :=
  users_find_one_and_update user_id (set_name_surname new_name new_surname) ;;
  users_find_one (by_id user_id).

Definition update_username (user_id new_username : string)
  : M (option User) :=
  users_find_one_and_update user_id (set_username new_username) ;;
  users_find_one (by_id user_id).

Definition update_bio (user_id new_bio : string) : M (option User) :=
  users_find_one_and_update user_id (set_bio new_bio) ;;
  users_find_one (by_id user_id).

(** [get_profile_image_id]: the whole document comes back, not one field. *)
Definition get_profile_image_id (user_id : string) : M (option User) :=
  users_find_one (by_id user_id).

Section Session.
(** [core.auth.Auth] is not part of the sources: its password check and its
    token decoder are taken as they come. *)
Variable verify_password : string -> string -> result bool.
Variable decode_token : string -> result string.

Definition login (n password : string) : M login_return :=
  user <- get_by_username n ;;
  known <- check_username n ;;
  if negb known
  then ret (rejected (HTTPException 401 "Invalid username"))
  else
    hashed <- getitem user hashed_password ;;
    verified <- lift (verify_password password hashed) ;;
    if negb verified
    then ret (rejected (HTTPException 401 "Invalid password"))
    else ret (logged_in user).

Definition get_current_user (token : string) : M (option User) :=
  n <- lift (decode_token token) ;;
  get_by_username n.
End Session.

(** ** The post endpoints ([src/endpoints/post.py]) *)

(** [fastapi.Response] with its body. *)
Inductive Response : Type :=
  | mkResponse (content : list Byte.byte).

Module post.
Section Endpoints.
(** [repositories.post.PostRepository] and the request models are not part
    of the sources: the methods of [posts] the endpoints call are taken as
    they come, each one an action on the same database. *)
Variables UploadFile PostIn CommentIn Deleted : Type.
Variable decode_token : string -> result string.
Variable posts_get_file_id : UploadFile -> M string.
Variable posts_create : string -> string -> PostIn -> M Post.
Variable posts_get_all : Z -> Z -> M (list Post).
Variable posts_get_file : string -> M (list Byte.byte).
Variable posts_delete : string -> string -> M Deleted.
Variable posts_get_feed : string -> M (list Post).
Variable posts_get_profile_feed : string -> M (list Post).
Variable posts_post_comment : string -> string -> CommentIn -> M Comment.
Variable posts_show_comments : string -> M (list Comment).

(** In each endpoint [credentials] is the text of the bearer token. *)
Definition create (credentials : string) (file : UploadFile) (p : PostIn)
  : M Post :=
  file_id <- posts_get_file_id file ;;
  user <- get_current_user decode_token credentials ;;
  user_id <- getitem user _id ;;
  posts_create user_id file_id p.

Definition list_posts (limit skip : Z) : M (list Post) :=
  posts_get_all limit skip.

Definition get_post_image (p_id credentials : string) : M Response :=
  content <- posts_get_file p_id ;;
  ret (mkResponse content).

Definition delete_post (p_id credentials : string) : M unit :=
  user <- get_current_user decode_token credentials ;;
  user_id <- getitem user _id ;;
  posts_delete p_id user_id ;;
  ret tt.

Definition get_feed (credentials : string) : M (list Post) :=
  user <- get_current_user decode_token credentials ;;
  user_id <- getitem user _id ;;
  posts_get_feed user_id.

Definition get_profile_feed (credentials : string) : M (list Post) :=
  user <- get_current_user decode_token credentials ;;
  user_id <- getitem user _id ;;
  posts_get_profile_feed user_id.

Definition create_comment (p_id credentials : string) (c : CommentIn)
  : M Comment :=
  user <- get_current_user decode_token credentials ;;
  user_id <- getitem user _id ;;
  posts_post_comment p_id user_id c.

Definition show_comments (p_id : string) : M (list Comment) :=
  posts_show_comments p_id.
End Endpoints.
End post.

(** Sample collaborators for the session and the endpoints. *)
Definition sample_verify_password (password hashed : string) : result bool :=
  Ok (bool_decide (hashed = "hashed:" +:+ password)).

Definition sample_decode_token (token : string) : result string :=
  if bool_decide (token = "") then Raise (HTTPException 401 "Invalid token")
  else Ok token.

Definition sample_posts_get_file_id (file : list Byte.byte) : M string :=
  ret "img-9".

Definition sample_posts_create (user_id file_id : string) (p : string)
  : M Post :=
  ret (mkPost "p9" user_id file_id p 0 0).

Definition sample_posts_delete (p_id user_id : string) : M string :=
  ret "deleted".

Definition sample_posts_feed (user_id : string) : M (list Post) :=
  read (λ db, filter (λ p, post_user_id p = user_id) (posts db)).

Definition sample_posts_post_comment (p_id user_id : string) (c : string)
  : M Comment :=
  ret (mkComment "c9" p_id user_id c 0).

(** * Properties *)

Example py_str_examples :
  py_str None = "None" ∧ py_str (Some 0) = "0" ∧ py_str (Some 42) = "42"
  ∧ py_str (Some (-7)) = "-7".
Proof. repeat split; reflexivity. Qed.

(** ** Facts about the collection calls *)

Section CollectionFacts.
Context {D K : Type} `{EqDecision K}.
Variable key : D -> K.

Abbreviation has k := (λ d : D, bool_decide (key d = k)).

Lemma find_one_Some (q : D -> bool) (c : list D) (d : D) :
  find_one q c = Some d → q d = true ∧ d ∈ c.
Proof.
  induction c as [|x c IH]; simpl; [done|].
  destruct (q x) eqn:Hq.
  - intros [= ->]. split; [done | left].
  - intros H. destruct (IH H) as [? ?]. split; [done | by right].
Qed.

Lemma find_one_key (k : K) (c : list D) (d : D) :
  find_one (has k) c = Some d → key d = k.
Proof.
  intros H. apply find_one_Some in H as [H _].
  by apply bool_decide_eq_true in H.
Qed.

Lemma find_one_None (q : D -> bool) (c : list D) :
  find_one q c = None ↔ ∀ d, d ∈ c → q d = false.
Proof.
  induction c as [|x c IH]; simpl.
  - split; [intros _ d Hd; by apply elem_of_nil in Hd | done].
  - destruct (q x) eqn:Hq.
    + split; [done|]. intros H. specialize (H x (list_elem_of_here _ _)).
      congruence.
    + rewrite IH. split.
      * intros H d Hd. apply elem_of_cons in Hd as [->|Hd]; auto.
      * intros H d Hd. apply H. by right.
Qed.

Lemma find_one_absent (k : K) (c : list D) :
  k ∉ key <$> c → find_one (has k) c = None.
Proof.
  intros Hk. apply find_one_None. intros d Hd.
  apply bool_decide_eq_false_2. intros <-. apply Hk.
  apply list_elem_of_fmap. by exists d.
Qed.

Lemma find_one_present (k : K) (c : list D) :
  k ∈ key <$> c → ∃ d, find_one (has k) c = Some d.
Proof.
  intros Hk. destruct (find_one (has k) c) as [d|] eqn:Hf; [by exists d|].
  apply list_elem_of_fmap in Hk as (d & -> & Hd).
  pose proof (proj1 (find_one_None _ _) Hf d Hd) as Hq. simpl in Hq.
  by apply bool_decide_eq_false in Hq.
Qed.

Lemma find_one_app (q : D -> bool) (c : list D) (d : D) :
  find_one q (c ++ [d]) =
    match find_one q c with
    | Some x => Some x
    | None => if q d then Some d else None
    end.
Proof.
  induction c as [|x c IH]; simpl; [done|]. by destruct (q x).
Qed.

(** Reading after an update that keeps the key: the updated document
    under the updated key, the old documents under every other key. *)
Lemma find_one_update (upd : D -> D) (j k : K) (c : list D) :
  (∀ d, key (upd d) = key d) →
  find_one (has k) (find_one_and_update (has j) upd c) =
    if decide (k = j) then upd <$> find_one (has j) c
    else find_one (has k) c.
Proof.
  intros Hkey. induction c as [|x c IH]; simpl.
  - by destruct (decide (k = j)).
  - destruct (bool_decide_reflect (key x = j)) as [Hj|Hj]; simpl.
    + rewrite Hkey. destruct (decide (k = j)) as [->|Hne].
      * by rewrite bool_decide_eq_true_2.
      * rewrite !bool_decide_eq_false_2; congruence.
    + destruct (bool_decide_reflect (key x = k)) as [Hk|Hk].
      * destruct (decide (k = j)); [congruence | done].
      * apply IH.
Qed.

Lemma update_update (f g : D -> D) (j : K) (c : list D) :
  (∀ d, key (f d) = key d) →
  find_one_and_update (has j) g (find_one_and_update (has j) f c) =
    find_one_and_update (has j) (g ∘ f) c.
Proof.
  intros Hkey. induction c as [|x c IH]; simpl; [done|].
  destruct (bool_decide_reflect (key x = j)) as [Hj|Hj]; simpl.
  - rewrite Hkey. by rewrite bool_decide_eq_true_2.
  - rewrite bool_decide_eq_false_2; [|done]. by rewrite IH.
Qed.

Lemma update_commute (f g : D -> D) (i j : K) (c : list D) :
  i ≠ j →
  (∀ d, key (f d) = key d) → (∀ d, key (g d) = key d) →
  find_one_and_update (has j) g (find_one_and_update (has i) f c) =
    find_one_and_update (has i) f (find_one_and_update (has j) g c).
Proof.
  intros Hne Hf Hg. induction c as [|x c IH]; simpl; [done|].
  repeat (simpl; rewrite ?Hf, ?Hg; case_bool_decide); simpl; congruence.
Qed.

Lemma update_same (q : D -> bool) (upd : D -> D) (c : list D) :
  (∀ d, find_one q c = Some d → upd d = d) →
  find_one_and_update q upd c = c.
Proof.
  induction c as [|x c IH]; simpl; [done|].
  destruct (q x); intros H.
  - by rewrite (H x).
  - by rewrite IH.
Qed.

Lemma update_length (q : D -> bool) (upd : D -> D) (c : list D) :
  length (find_one_and_update q upd c) = length c.
Proof.
  induction c as [|x c IH]; simpl; [done|]. destruct (q x); simpl; congruence.
Qed.

Lemma update_keys (q : D -> bool) (upd : D -> D) (c : list D) :
  (∀ d, key (upd d) = key d) →
  key <$> find_one_and_update q upd c = key <$> c.
Proof.
  intros Hkey. induction c as [|x c IH]; [done|].
  cbn [find_one_and_update].
  destruct (q x); rewrite !fmap_cons; [by rewrite Hkey | by rewrite IH].
Qed.

(** Deleting under one key leaves every other key as it was. *)
Lemma find_one_delete_ne (j k : K) (c : list D) :
  k ≠ j →
  find_one (has k) (find_one_and_delete (has j) c) = find_one (has k) c.
Proof.
  intros Hne. induction c as [|x c IH]; simpl; [done|].
  destruct (bool_decide_reflect (key x = j)) as [Hj|Hj]; simpl.
  - by rewrite bool_decide_eq_false_2; [|congruence].
  - by rewrite IH.
Qed.

Lemma filter_keeps_all (P : D → Prop) `{∀ d, Decision (P d)}
    (c : list D) :
  (∀ d, d ∈ c → P d) → filter P c = c.
Proof.
  induction c as [|x c IH]; intros Hall; [done|].
  rewrite filter_cons_True; [|apply Hall; left].
  rewrite IH; [done|]. intros d Hd. apply Hall. by right.
Qed.

(** With unique keys the first match is the only one. *)
Lemma delete_filter (j : K) (c : list D) :
  NoDup (key <$> c) →
  find_one_and_delete (has j) c = filter (λ d, key d ≠ j) c.
Proof.
  induction c as [|x c IH]; simpl; [done|].
  intros [Hx Hc]%NoDup_cons.
  destruct (bool_decide_reflect (key x = j)) as [Hj|Hj].
  - rewrite filter_cons_False; [|by intros ?].
    symmetry. apply filter_keeps_all.
    intros d Hd Hd'. apply Hx. apply list_elem_of_fmap. exists d.
    split; [congruence | done].
  - rewrite filter_cons_True; [|done]. by rewrite IH.
Qed.

Lemma find_one_filter_ne (j : K) (c : list D) :
  find_one (has j) (filter (λ d, key d ≠ j) c) = None.
Proof.
  apply find_one_None. intros d [Hd _]%list_elem_of_filter.
  by apply bool_decide_eq_false_2.
Qed.

Lemma delete_others (j : K) (c : list D) :
  filter (λ d, key d ≠ j) (find_one_and_delete (has j) c) =
    filter (λ d, key d ≠ j) c.
Proof.
  induction c as [|x c IH]; simpl; [done|].
  destruct (bool_decide_reflect (key x = j)) as [Hj|Hj].
  - rewrite filter_cons_False; [done | by intros ?].
  - rewrite !filter_cons_True; [|done..]. by rewrite IH.
Qed.
End CollectionFacts.

(** ** Facts about the [users] and [posts] collections *)

Lemma on_subscriptions_keeps_id f : keeps_id (on_subscriptions f).
Proof. by intros u. Qed.
Lemma on_subscribers_keeps_id f : keeps_id (on_subscribers f).
Proof. by intros u. Qed.
Lemma on_liked_posts_keeps_id f : keeps_id (on_liked_posts f).
Proof. by intros u. Qed.
Lemma set_profile_keeps_id n s b a g e : keeps_id (set_profile n s b a g e).
Proof. by intros u. Qed.
Lemma set_profile_image_keeps_id f : keeps_id (set_profile_image f).
Proof. by intros u. Qed.

Create HintDb repo.
#[export] Hint Resolve on_subscriptions_keeps_id on_subscribers_keeps_id
  on_liked_posts_keeps_id set_profile_keeps_id set_profile_image_keeps_id
  : repo.

Lemma users_find_one_update (upd : User -> User) (j k : string) c :
  keeps_id upd →
  find_one (by_id k) (find_one_and_update (by_id j) upd c) =
    if decide (k = j) then upd <$> find_one (by_id j) c
    else find_one (by_id k) c.
Proof. intros H. by apply (find_one_update _id). Qed.

Lemma users_find_one_id (i : string) c (u : User) :
  find_one (by_id i) c = Some u → _id u = i.
Proof. apply (find_one_key _id). Qed.

Lemma posts_find_one_update (upd : Post -> Post) (j k : string) c :
  (∀ p, post_id (upd p) = post_id p) →
  find_one (by_post_id k) (find_one_and_update (by_post_id j) upd c) =
    if decide (k = j) then upd <$> find_one (by_post_id j) c
    else find_one (by_post_id k) c.
Proof. intros H. by apply (find_one_update post_id). Qed.

Lemma users_absent_id (i : string) (c : list User) :
  i ∉ _id <$> c → find_one (by_id i) c = None.
Proof. apply (find_one_absent _id). Qed.

Lemma users_absent_username (n : string) (c : list User) :
  n ∉ username <$> c → find_one (by_username n) c = None.
Proof. apply (find_one_absent username). Qed.

Lemma users_present_username (n : string) (c : list User) :
  n ∈ username <$> c → ∃ u, find_one (by_username n) c = Some u.
Proof. apply (find_one_present username). Qed.

Lemma users_update_update (f g : User -> User) (j : string) c :
  keeps_id f →
  find_one_and_update (by_id j) g (find_one_and_update (by_id j) f c) =
    find_one_and_update (by_id j) (g ∘ f) c.
Proof. intros H. by apply (update_update _id). Qed.


Lemma pull_spec (x y : string) (l : list string) :
  y ∈ pull x l ↔ y ≠ x ∧ y ∈ l.
Proof. exact (list_elem_of_filter (λ z : string, z ≠ x) l y). Qed.

Lemma pull_push_fresh (x : string) (l : list string) :
  x ∉ l → pull x (push x l) = l.
Proof.
  intros Hx. unfold pull, push. rewrite filter_app.
  rewrite filter_cons_False; [|by intros ?]. rewrite filter_nil, app_nil_r.
  apply filter_keeps_all. intros y Hy ->. by apply Hx.
Qed.

(** The loop of [__get_sub_helper__] is a map of [find_one] over the ids. *)
Lemma for_u_id_spec (ids : list string) (res : list (option User)) db :
  for_u_id ids res db =
    (Ok (res ++ ((λ i, find_one (by_id i) (users db)) <$> ids)), db).
Proof.
  revert res. induction ids as [|i ids IH]; intros res; simpl.
  - by rewrite app_nil_r.
  - unfold bind, users_find_one, read. rewrite IH.
    by rewrite <- app_assoc.
Qed.

Lemma get_sub_helper_spec (user_id : string) (w : what_need) db (u : User) :
  find_one (by_id user_id) (users db) = Some u →
  __get_sub_helper__ user_id w db =
    (Ok ((λ i, find_one (by_id i) (users db)) <$> field w u), db).
Proof.
  intros Hu. unfold __get_sub_helper__, bind, users_find_one, read.
  rewrite Hu. simpl. by rewrite for_u_id_spec.
Qed.

Lemma get_sub_helper_missing (user_id : string) (w : what_need) db :
  find_one (by_id user_id) (users db) = None →
  __get_sub_helper__ user_id w db = (Raise TypeError, db).
Proof.
  intros Hu. unfold __get_sub_helper__, bind, users_find_one, read.
  by rewrite Hu.
Qed.

(** The two writes of [subscribe] and of [unsubsribe]: the first document
    with id [A] gets [f] on its subscriptions, the first with id [B] gets
    [g] on its subscribers. *)
Lemma paired_update (A B : string) (f g : list string -> list string)
    (c : list User) (a b : User) :
  find_one (by_id A) c = Some a →
  find_one (by_id B) c = Some b →
  let c' := find_one_and_update (by_id B) (on_subscribers g)
              (find_one_and_update (by_id A) (on_subscriptions f) c) in
  ∃ a' b',
    find_one (by_id A) c' = Some a' ∧ find_one (by_id B) c' = Some b' ∧
    subscriptions a' = f (subscriptions a) ∧
    subscribers b' = g (subscribers b).
Proof.
  intros Ha Hb c'. unfold c'.
  rewrite !users_find_one_update by auto with repo.
  destruct (decide (A = B)) as [->|Hne].
  - rewrite !decide_True by done. rewrite Ha in Hb. injection Hb as <-.
    rewrite Ha. simpl. by do 2 eexists.
  - rewrite !decide_True by done. rewrite !decide_False by done.
    rewrite Ha, Hb. simpl. by do 2 eexists.
Qed.

(** The [_id] index stays unique: updates keep the identifiers, a delete
    drops one, and [insert_one] refuses an identifier already in use. *)
Lemma users_update_keeps_ids (i : string) (upd : User -> User) c :
  keeps_id upd → _id <$> find_one_and_update (by_id i) upd c = _id <$> c.
Proof. intros H. by apply (update_keys _id). Qed.

Lemma users_insert_one_unique (u : User) (db : Database) :
  NoDup (_id <$> users db) → NoDup (_id <$> users (users_insert_one u db).2).
Proof.
  intros Hnd. unfold users_insert_one.
  destruct (find_one (by_id (_id u)) (users db)) as [d|] eqn:Hf; [done|].
  simpl. rewrite fmap_app. apply NoDup_app. split; [done|].
  split; [|apply NoDup_singleton].
  intros x Hx ->%list_elem_of_singleton.
  apply (find_one_present _id) in Hx as [d Hd].
  change (find_one (by_id (_id u)) (users db) = Some d) in Hd. congruence.
Qed.

(** ** The relationship fields *)

(** C10: when the subscriptions (or subscribers) sequence of a stored user
    holds ids that no longer resolve, [get_subscriptions] (resp.
    [get_subscribers]) does not fail and skips nothing: the answer has the
    length of the stored sequence, entry [k] is the result of looking up the
    [k]-th stored id, and that is [None] for an id no user has. *)
Theorem get_subs_keep_dangling (user_id : string) (db : Database) (u : User) :
  find_one (by_id user_id) (users db) = Some u →
  (∃ res, get_subscriptions user_id db = (Ok res, db) ∧
          length res = length (subscriptions u) ∧
          ∀ (k : nat) (i : string), subscriptions u !! k = Some i →
            res !! k = Some (find_one (by_id i) (users db)) ∧
            (find_one (by_id i) (users db) = None → res !! k = Some None)) ∧
  (∃ res, get_subscribers user_id db = (Ok res, db) ∧
          length res = length (subscribers u) ∧
          ∀ (k : nat) (i : string), subscribers u !! k = Some i →
            res !! k = Some (find_one (by_id i) (users db)) ∧
            (find_one (by_id i) (users db) = None → res !! k = Some None)).
Proof.
  intros Hu. unfold get_subscriptions, get_subscribers.
  split; eexists; (split; [by apply get_sub_helper_spec|]);
    (split; [by rewrite length_fmap|]);
    intros k i Hk; simpl; rewrite list_lookup_fmap, Hk; simpl;
    (split; [done | by intros ->]).
Qed.

(** C1: for two stored users A and B, after [subscribe(A, B)] the answer of
    [get_subscriptions(A)] holds B's record and the answer of
    [get_subscribers(B)] holds A's record; after [unsubsribe(A, B)] no entry
    of [get_subscriptions(A)] is a record of B and no entry of
    [get_subscribers(B)] is a record of A.  Both calls write the two
    relationship fields together. *)
Theorem subscribe_unsubscribe_symmetric (A B : string) (db : Database)
    (a b : User) :
  find_one (by_id A) (users db) = Some a →
  find_one (by_id B) (users db) = Some b →
  let db1 := (subscribe A B db).2 in
  let db2 := (unsubsribe A B db1).2 in
  (∃ a1 b1 : User,
     find_one (by_id A) (users db1) = Some a1 ∧
     find_one (by_id B) (users db1) = Some b1 ∧
     subscriptions a1 = subscriptions a ++ [B] ∧
     subscribers b1 = subscribers b ++ [A] ∧
     (∃ l, get_subscriptions A db1 = (Ok l, db1) ∧ Some b1 ∈ l) ∧
     (∃ l, get_subscribers B db1 = (Ok l, db1) ∧ Some a1 ∈ l)) ∧
  (∃ a2 b2 : User,
     find_one (by_id A) (users db2) = Some a2 ∧
     find_one (by_id B) (users db2) = Some b2 ∧
     (B ∉ subscriptions a2) ∧ (A ∉ subscribers b2) ∧
     (∃ l, get_subscriptions A db2 = (Ok l, db2) ∧
           ∀ u, Some u ∈ l → _id u ≠ B) ∧
     (∃ l, get_subscribers B db2 = (Ok l, db2) ∧
           ∀ u, Some u ∈ l → _id u ≠ A)).
Proof.
  intros Ha Hb db1 db2.
  destruct (paired_update A B (push B) (push A) _ _ _ Ha Hb)
    as (a1 & b1 & Ha1 & Hb1 & Hsa1 & Hsb1).
  change (find_one_and_update _ _ _) with (users db1) in Ha1, Hb1.
  destruct (paired_update A B (pull B) (pull A) _ _ _ Ha1 Hb1)
    as (a2 & b2 & Ha2 & Hb2 & Hsa2 & Hsb2).
  change (find_one_and_update _ _ _) with (users db2) in Ha2, Hb2.
  split.
  - exists a1, b1. repeat split; try done.
    + eexists. split; [by apply get_sub_helper_spec|].
      apply list_elem_of_fmap. exists B. split; [done|]. simpl.
      rewrite Hsa1. apply elem_of_app. right. left.
    + eexists. split; [by apply get_sub_helper_spec|].
      apply list_elem_of_fmap. exists A. split; [done|]. simpl.
      rewrite Hsb1. apply elem_of_app. right. left.
  - exists a2, b2. repeat split; try done.
    + rewrite Hsa2. intros [? _]%pull_spec. done.
    + rewrite Hsb2. intros [? _]%pull_spec. done.
    + eexists. split; [by apply get_sub_helper_spec|].
      intros u (i & Hi & Hin)%list_elem_of_fmap. simpl in Hin.
      rewrite Hsa2 in Hin. apply pull_spec in Hin as [Hne _].
      symmetry in Hi. apply users_find_one_id in Hi. congruence.
    + eexists. split; [by apply get_sub_helper_spec|].
      intros u (i & Hi & Hin)%list_elem_of_fmap. simpl in Hin.
      rewrite Hsb2 in Hin. apply pull_spec in Hin as [Hne _].
      symmetry in Hi. apply users_find_one_id in Hi. congruence.
Qed.

(** ** Likes *)

Lemma inc_likes_keeps_id n p : post_id (inc_likes n p) = post_id p.
Proof. done. Qed.


(** What a like or an unlike does to the two collections. *)
Lemma set_like_run (P U : string) (db : Database) :
  users (set_like P U db).2 =
    find_one_and_update (by_id U) (on_liked_posts (push P)) (users db) ∧
  posts (set_like P U db).2 =
    find_one_and_update (by_post_id P) (inc_likes 1) (posts db) ∧
  (set_like P U db).1 =
    Ok (find_one (by_post_id P) (posts (set_like P U db).2)).
Proof. done. Qed.

Lemma unset_like_run (P U : string) (db : Database) :
  users (unset_like P U db).2 =
    find_one_and_update (by_id U) (on_liked_posts (pull P)) (users db) ∧
  posts (unset_like P U db).2 =
    find_one_and_update (by_post_id P) (inc_likes (-1)) (posts db) ∧
  (unset_like P U db).1 =
    Ok (find_one (by_post_id P) (posts (unset_like P U db).2)).
Proof. done. Qed.


(** C8, as the code has it: [unset_like(P, U)] takes exactly 1 from the
    counter of a stored post P whatever the counter and whatever U has
    liked; there is no floor, so the counter is non-negative afterwards
    exactly when it was at least 1 before. *)
Theorem unset_like_decrements (P U : string) (db : Database) (p : Post) :
  find_one (by_post_id P) (posts db) = Some p →
  ∃ p' : Post,
    (unset_like P U db).1 = Ok (Some p') ∧
    find_one (by_post_id P) (posts (unset_like P U db).2) = Some p' ∧
    likes p' = likes p - 1 ∧
    (0 ≤ likes p' ↔ 1 ≤ likes p).
Proof.
  intros Hp. exists (inc_likes (-1) p).
  destruct (unset_like_run P U db) as (_ & Hps & Hr).
  rewrite Hr, Hps.
  rewrite posts_find_one_update by apply inc_likes_keeps_id.
  rewrite decide_True by done. rewrite Hp. simpl.
  repeat split; try done; lia.
Qed.

(** ** Lookups *)

(** C4, as the code has it: for an id no stored user has, [get_by_id]
    raises 404 Not Found; for a username no stored user has,
    [get_by_username] raises nothing and returns [None]. *)
Theorem get_by_id_raises_get_by_username_returns_None
    (i n : string) (db : Database) :
  i ∉ _id <$> users db →
  n ∉ username <$> users db →
  get_by_id i db =
    (Raise (HTTPException HTTP_404_NOT_FOUND
              ("User with ID " +:+ i +:+ " not found")), db) ∧
  get_by_username n db = (Ok None, db).
Proof.
  intros Hi Hn.
  unfold get_by_id, get_by_username, bind, users_find_one, read.
  rewrite (users_absent_id i _ Hi).
  by rewrite (users_absent_username n _ Hn).
Qed.

(** ** Listing *)

Lemma get_all_at_most_limit (limit skip : Z) (db : Database) :
  0 < limit →
  ∃ l, get_all limit skip db = (Ok l, db) ∧
       l = take (Z.to_nat limit) (users db) ∧
       (Z.of_nat (length l) ≤ limit).
Proof.
  intros Hl. eexists. split; [done|]. unfold find.
  destruct (Z.eqb_spec limit 0) as [->|_]; [lia|].
  rewrite Z.abs_eq by lia. split; [done|]. rewrite length_take. lia.
Qed.

(** C6: [get_all] never looks at [skip]: whatever [skip] is, it answers as
    for [skip = 0], so with three stored users, [limit = 2] and [skip = 1]
    it returns the first two users, the first one included. *)
Theorem get_all_ignores_skip :
  (∀ (limit skip : Z) (db : Database),
     get_all limit skip db = get_all limit 0 db) ∧
  get_all 2 1 sample_db = (Ok [alice; bob], sample_db) ∧
  [alice; bob] ≠ take 2 (drop 1 (users sample_db)).
Proof. repeat split; done. Qed.

(** ** Profile edits *)

(** C7, as the code has it: [update] writes name, surname, bio, age, gender
    and email from its argument whatever they hold, a missing value
    included (age as the text [str] gives); every other field of the
    record, every other user and the other collections keep their values;
    the call returns the record as it is after the write. *)
Theorem update_overwrites_profile (user_id : string) (_user : UserIn)
    (db : Database) (u : User) :
  find_one (by_id user_id) (users db) = Some u →
  ∃ u' : User,
    (update user_id _user db).1 = Ok (Some u') ∧
    find_one (by_id user_id) (users (update user_id _user db).2) = Some u' ∧
    (name u' = in_name _user ∧ surname u' = in_surname _user ∧
     bio u' = in_bio _user ∧ age u' = Some (py_str (in_age _user)) ∧
     gender u' = in_gender _user ∧ email u' = in_email _user) ∧
    (_id u' = _id u ∧ username u' = username u ∧
     hashed_password u' = hashed_password u ∧
     profile_image u' = profile_image u ∧
     created_at u' = created_at u ∧ updated_at u' = updated_at u ∧
     subscriptions u' = subscriptions u ∧ subscribers u' = subscribers u ∧
     liked_posts u' = liked_posts u) ∧
    (∀ k, k ≠ user_id →
       find_one (by_id k) (users (update user_id _user db).2) =
       find_one (by_id k) (users db)) ∧
    posts (update user_id _user db).2 = posts db ∧
    comments (update user_id _user db).2 = comments db.
Proof.
  intros Hu.
  exists (set_profile (in_name _user) (in_surname _user) (in_bio _user)
            (py_str (in_age _user)) (in_gender _user) (in_email _user) u).
  assert (Hfind : find_one (by_id user_id)
                    (users (update user_id _user db).2) = Some
            (set_profile (in_name _user) (in_surname _user) (in_bio _user)
               (py_str (in_age _user)) (in_gender _user) (in_email _user) u)).
  { simpl. rewrite users_find_one_update by auto with repo.
    rewrite decide_True by done. by rewrite Hu. }
  split; [|split; [exact Hfind|]].
  - unfold update, bind at 1. simpl. unfold users_find_one, read. simpl.
    simpl in Hfind. by rewrite Hfind.
  - repeat split; try done.
    intros k Hk. simpl. rewrite users_find_one_update by auto with repo.
    by rewrite decide_False.
Qed.

(** The two paths of [update_profile_image] for a stored user. *)
Lemma update_profile_image_default (settings : Settings)
    (ObjectId : string -> result object_id) (user_id file_id : string)
    (db : Database) (u : User) :
  find_one (by_id user_id) (users db) = Some u →
  profile_image u = DEFAULT_PROFILE_IMAGE settings →
  update_profile_image settings ObjectId user_id file_id db =
    (Ok (Some (set_profile_image file_id u)),
     with_users (find_one_and_update (by_id user_id)
                   (set_profile_image file_id)) (update_user user_id) db).
Proof.
  intros Hu Hd. unfold update_profile_image, bind, users_find_one, read.
  rewrite Hu. simpl.
  rewrite bool_decide_eq_false_2 by (intros H; by apply H). simpl.
  rewrite users_find_one_update by auto with repo.
  rewrite decide_True by done. by rewrite Hu.
Qed.

Lemma update_profile_image_custom (settings : Settings)
    (ObjectId : string -> result object_id) (user_id file_id : string)
    (db : Database) (u : User) (o : object_id) :
  find_one (by_id user_id) (users db) = Some u →
  profile_image u ≠ DEFAULT_PROFILE_IMAGE settings →
  ObjectId (profile_image u) = Ok o →
  update_profile_image settings ObjectId user_id file_id db =
    (Ok (Some (set_profile_image file_id u)),
     with_users (find_one_and_update (by_id user_id)
                   (set_profile_image file_id)) (update_user user_id)
       (with_imgs_profile (base.delete o) (delete_image o) db)).
Proof.
  intros Hu Hd Ho. unfold update_profile_image, bind, users_find_one, read.
  rewrite Hu. simpl. rewrite bool_decide_eq_true_2 by done.
  unfold lift. rewrite Ho. simpl.
  rewrite users_find_one_update by auto with repo.
  rewrite decide_True by done. by rewrite Hu.
Qed.

Lemma update_profile_image_invalid_reference (settings : Settings)
    (ObjectId : string -> result object_id) (user_id file_id : string)
    (db : Database) (u : User) (e : exn) :
  find_one (by_id user_id) (users db) = Some u →
  profile_image u ≠ DEFAULT_PROFILE_IMAGE settings →
  ObjectId (profile_image u) = Raise e →
  update_profile_image settings ObjectId user_id file_id db = (Raise e, db).
Proof.
  intros Hu Hd Ho. unfold update_profile_image, bind, users_find_one, read.
  rewrite Hu. simpl. rewrite bool_decide_eq_true_2 by done.
  unfold lift. by rewrite Ho.
Qed.

Lemma update_profile_image_missing_user (settings : Settings)
    (ObjectId : string -> result object_id) (user_id file_id : string)
    (db : Database) :
  find_one (by_id user_id) (users db) = None →
  update_profile_image settings ObjectId user_id file_id db =
    (Raise TypeError, db).
Proof.
  intros Hu. unfold update_profile_image, bind, users_find_one, read.
  by rewrite Hu.
Qed.

(** C5, as the code has it: for a stored user whose profile image is not
    the default one and is the text of an object id,
    [update_profile_image] deletes the old file from the bucket and then
    records the new reference; for a stored user with the default image it
    deletes nothing; in these two cases the record returned, which is the
    stored one, has [file_id] as profile image.  For a stored user whose
    non-default reference [ObjectId] refuses, the call raises what
    [ObjectId] raised, deletes nothing and records nothing. *)
Theorem update_profile_image_deletes_old (settings : Settings)
    (ObjectId : string -> result object_id) (user_id file_id : string)
    (db : Database) (u : User) :
  find_one (by_id user_id) (users db) = Some u →
  let r := update_profile_image settings ObjectId user_id file_id db in
  (profile_image u = DEFAULT_PROFILE_IMAGE settings →
     imgs_profile r.2 = imgs_profile db ∧
     sent r.2 = sent db ++ [update_user user_id] ∧
     ∃ u' : User,
       r.1 = Ok (Some u') ∧
       find_one (by_id user_id) (users r.2) = Some u' ∧
       profile_image u' = file_id) ∧
  (profile_image u ≠ DEFAULT_PROFILE_IMAGE settings →
   ∀ o, ObjectId (profile_image u) = Ok o →
     imgs_profile r.2 = base.delete o (imgs_profile db) ∧
     imgs_profile r.2 !! o = None ∧
     sent r.2 = sent db ++ [delete_image o; update_user user_id] ∧
     ∃ u' : User,
       r.1 = Ok (Some u') ∧
       find_one (by_id user_id) (users r.2) = Some u' ∧
       profile_image u' = file_id) ∧
  (profile_image u ≠ DEFAULT_PROFILE_IMAGE settings →
   ∀ e, ObjectId (profile_image u) = Raise e →
     r = (Raise e, db)).
Proof.
  intros Hu r. subst r. split; [|split].
  - intros Hd.
    rewrite (update_profile_image_default _ _ _ _ _ _ Hu Hd). simpl.
    repeat split. exists (set_profile_image file_id u).
    repeat split. rewrite users_find_one_update by auto with repo.
    rewrite decide_True by done. by rewrite Hu.
  - intros Hd o Ho.
    rewrite (update_profile_image_custom _ _ _ _ _ _ _ Hu Hd Ho). simpl.
    split; [done|]. split; [apply lookup_delete_eq|].
    split; [by rewrite <- app_assoc|].
    exists (set_profile_image file_id u).
    repeat split. rewrite users_find_one_update by auto with repo.
    rewrite decide_True by done. by rewrite Hu.
  - intros Hd e Ho.
    by apply (update_profile_image_invalid_reference _ _ _ _ _ u).
Qed.

(** ** Deleting an account *)

(** C9: [delete(id)] returns without raising; it leaves posts, comments and
    the image bucket as they were, keeps every record with another id, in
    the same order and with the same fields, and, ids being unique, leaves no
    record with the given id. *)
Theorem delete_removes_only_that_user (user_id : string) (db : Database) :
  NoDup (_id <$> users db) →
  let db' := (delete user_id db).2 in
  (delete user_id db).1 = Ok tt ∧
  users db' = filter (λ u, _id u ≠ user_id) (users db) ∧
  find_one (by_id user_id) (users db') = None ∧
  (∀ k, k ≠ user_id →
     find_one (by_id k) (users db') = find_one (by_id k) (users db)) ∧
  (∀ u, u ∈ users db → _id u ≠ user_id → u ∈ users db') ∧
  posts db' = posts db ∧
  comments db' = comments db ∧
  imgs_profile db' = imgs_profile db.
Proof.
  intros Hnd db'. subst db'. simpl.
  assert (Hf : find_one_and_delete (by_id user_id) (users db) =
               filter (λ u, _id u ≠ user_id) (users db))
    by apply (delete_filter _id _ _ Hnd).
  rewrite Hf. repeat split; try done.
  - apply (find_one_filter_ne _id).
  - intros k Hk. rewrite <- Hf. by apply (find_one_delete_ne _id).
  - intros u Hin Hne. by apply list_elem_of_filter.
Qed.

(** ** Signing up *)

Lemma check_username_taken (n : string) (db : Database) :
  n ∈ username <$> users db → check_username n db = (Ok true, db).
Proof.
  intros [u Hu]%users_present_username.
  unfold check_username, bind, users_find_one, read. by rewrite Hu.
Qed.

Lemma check_username_free (n : string) (db : Database) :
  n ∉ username <$> users db → check_username n db = (Ok false, db).
Proof.
  intros Hn%users_absent_username.
  unfold check_username, bind, users_find_one, read. by rewrite Hn.
Qed.

(** The bare [except] of [signup]: a hasher that raises, or an identifier
    that is already taken, ends in the second 401 and stores nothing. *)
Lemma signup_failed (settings : Settings)
    (encode_password : string -> result string) (User_defaults : User)
    (n password inserted_id : string) (now1 now2 : datetime)
    (db : Database) :
  n ∉ username <$> users db →
  (∃ e, encode_password password = Raise e) ∨
  inserted_id ∈ _id <$> users db →
  signup settings encode_password User_defaults n password inserted_id
    now1 now2 db =
    (Ok (refused (HTTPException 401 "Failed to signup user")), db).
Proof.
  intros Hn Hfail. unfold signup, bind at 1.
  rewrite (check_username_free _ _ Hn). unfold try_except, bind, lift.
  destruct (encode_password password) as [hashed|e] eqn:He; [|done].
  destruct Hfail as [[e He']|Hid]; [congruence|].
  apply (find_one_present _id) in Hid as [d Hd].
  unfold create, bind, users_insert_one. simpl.
  change (find_one (by_id inserted_id) (users db) = Some d) in Hd.
  by rewrite Hd.
Qed.

Lemma signup_created (settings : Settings)
    (encode_password : string -> result string) (User_defaults : User)
    (n password inserted_id hashed : string) (now1 now2 : datetime)
    (db : Database) :
  n ∉ username <$> users db →
  encode_password password = Ok hashed →
  inserted_id ∉ _id <$> users db →
  let u :=
    set_profile_image (DEFAULT_PROFILE_IMAGE settings)
      (mkUser inserted_id n hashed
         (name User_defaults) (surname User_defaults) (bio User_defaults)
         (age User_defaults) (gender User_defaults) (email User_defaults)
         (profile_image User_defaults) now1 now2
         (subscriptions User_defaults) (subscribers User_defaults)
         (liked_posts User_defaults)) in
  signup settings encode_password User_defaults n password inserted_id
    now1 now2 db =
    (Ok (created (Some u)),
     with_users (λ c, c ++ [u]) (insert_user inserted_id) db).
Proof.
  intros Hn He Hid%users_absent_id u. unfold signup, bind at 1.
  rewrite (check_username_free _ _ Hn). unfold try_except, bind, lift.
  rewrite He. unfold create, bind, users_insert_one. simpl.
  rewrite Hid. simpl. unfold users_find_one, read. simpl.
  rewrite find_one_app, Hid. unfold by_id at 1. simpl.
  by rewrite bool_decide_eq_true_2.
Qed.

(** C3, as the code has it: when the username is already stored, [signup]
    answers with an [HTTPException] of status 401, "Account already
    exists", and the database is left as it was; otherwise, the hasher and
    the insertion going through, it stores one new record, last in the
    collection, with the given username, the hashed password, the default
    profile image and the two clock readings as [created_at] and
    [updated_at], and returns that record. *)
Theorem signup_duplicate_or_created (settings : Settings)
    (encode_password : string -> result string) (User_defaults : User)
    (n password inserted_id : string) (now1 now2 : datetime)
    (db : Database) :
  let r := signup settings encode_password User_defaults n password
             inserted_id now1 now2 db in
  (n ∈ username <$> users db →
     r = (Ok (refused (HTTPException HTTP_401_UNAUTHORIZED
                         "Account already exists")), db)) ∧
  (n ∉ username <$> users db →
   ∀ hashed, encode_password password = Ok hashed →
   inserted_id ∉ _id <$> users db →
     ∃ u : User,
       r.1 = Ok (created (Some u)) ∧
       users r.2 = users db ++ [u] ∧
       _id u = inserted_id ∧ username u = n ∧
       hashed_password u = hashed ∧
       profile_image u = DEFAULT_PROFILE_IMAGE settings ∧
       created_at u = now1 ∧ updated_at u = now2).
Proof.
  intros r. subst r. split.
  - intros Hn. unfold signup, bind.
    by rewrite (check_username_taken _ _ Hn).
  - intros Hn hashed He Hid.
    rewrite (signup_created _ _ User_defaults _ _ _ _ now1 now2 _ Hn He Hid).
    simpl. eexists. repeat split.
Qed.

(** ** The theorems at the sample database *)

Lemma sample_ids_unique : NoDup (_id <$> users sample_db).
Proof. apply (bool_decide_unpack _). vm_compute. exact I. Defined.

Lemma get_subs_keep_dangling_witness :
  find_one (by_id "u1") (users sample_db) = Some alice ∧
  get_subscriptions "u1" sample_db = (Ok [Some bob; None], sample_db) ∧
  ∃ res, get_subscriptions "u1" sample_db = (Ok res, sample_db) ∧
         length res = length (subscriptions alice) ∧
         ∀ (k : nat) (i : string), subscriptions alice !! k = Some i →
           res !! k = Some (find_one (by_id i) (users sample_db)) ∧
           (find_one (by_id i) (users sample_db) = None →
            res !! k = Some None).
Proof.
  split; [reflexivity|]. split; [reflexivity|].
  exact (proj1 (get_subs_keep_dangling "u1" sample_db alice eq_refl)).
Defined.

Lemma subscribe_unsubscribe_symmetric_witness :
  find_one (by_id "u3") (users sample_db) = Some carol ∧
  find_one (by_id "u1") (users sample_db) = Some alice ∧
  let db1 := (subscribe "u3" "u1" sample_db).2 in
  let db2 := (unsubsribe "u3" "u1" db1).2 in
  (∃ a1 b1 : User,
     find_one (by_id "u3") (users db1) = Some a1 ∧
     find_one (by_id "u1") (users db1) = Some b1 ∧
     subscriptions a1 = subscriptions carol ++ ["u1"] ∧
     subscribers b1 = subscribers alice ++ ["u3"] ∧
     (∃ l, get_subscriptions "u3" db1 = (Ok l, db1) ∧ Some b1 ∈ l) ∧
     (∃ l, get_subscribers "u1" db1 = (Ok l, db1) ∧ Some a1 ∈ l)) ∧
  (∃ a2 b2 : User,
     find_one (by_id "u3") (users db2) = Some a2 ∧
     find_one (by_id "u1") (users db2) = Some b2 ∧
     ("u1" ∉ subscriptions a2) ∧ ("u3" ∉ subscribers b2) ∧
     (∃ l, get_subscriptions "u3" db2 = (Ok l, db2) ∧
           ∀ u, Some u ∈ l → _id u ≠ "u1") ∧
     (∃ l, get_subscribers "u1" db2 = (Ok l, db2) ∧
           ∀ u, Some u ∈ l → _id u ≠ "u3")).
Proof.
  split; [reflexivity|]. split; [reflexivity|].
  exact (subscribe_unsubscribe_symmetric "u3" "u1" sample_db carol alice
           eq_refl eq_refl).
Defined.


Lemma unset_like_decrements_witness :
  find_one (by_post_id "p1") (posts sample_db) = Some p1 ∧
  ∃ p' : Post,
    (unset_like "p1" "u1" sample_db).1 = Ok (Some p') ∧
    find_one (by_post_id "p1") (posts (unset_like "p1" "u1" sample_db).2)
      = Some p' ∧
    likes p' = likes p1 - 1 ∧
    (0 ≤ likes p' ↔ 1 ≤ likes p1).
Proof.
  split; [reflexivity|].
  exact (unset_like_decrements "p1" "u1" sample_db p1 eq_refl).
Defined.

Lemma get_by_id_raises_get_by_username_returns_None_witness :
  ("u7" ∉ _id <$> users sample_db) ∧
  ("dave" ∉ username <$> users sample_db) ∧
  get_by_id "u7" sample_db =
    (Raise (HTTPException HTTP_404_NOT_FOUND
              ("User with ID " +:+ "u7" +:+ " not found")), sample_db) ∧
  get_by_username "dave" sample_db = (Ok None, sample_db).
Proof.
  assert (H1 : "u7" ∉ _id <$> users sample_db)
    by (apply (bool_decide_unpack _); vm_compute; exact I).
  assert (H2 : "dave" ∉ username <$> users sample_db)
    by (apply (bool_decide_unpack _); vm_compute; exact I).
  split; [exact H1|]. split; [exact H2|].
  exact (get_by_id_raises_get_by_username_returns_None "u7" "dave"
           sample_db H1 H2).
Defined.

Lemma update_overwrites_profile_witness :
  find_one (by_id "u1") (users sample_db) = Some alice ∧
  let _user := mkUserIn (Some "Al") (Some "Ice") (Some "hi") (Some 30)
                 None (Some "al@ice") in
  ∃ u' : User,
    (update "u1" _user sample_db).1 = Ok (Some u') ∧
    find_one (by_id "u1") (users (update "u1" _user sample_db).2)
      = Some u' ∧
    (name u' = in_name _user ∧ surname u' = in_surname _user ∧
     bio u' = in_bio _user ∧ age u' = Some (py_str (in_age _user)) ∧
     gender u' = in_gender _user ∧ email u' = in_email _user) ∧
    (_id u' = _id alice ∧ username u' = username alice ∧
     hashed_password u' = hashed_password alice ∧
     profile_image u' = profile_image alice ∧
     created_at u' = created_at alice ∧ updated_at u' = updated_at alice ∧
     subscriptions u' = subscriptions alice ∧
     subscribers u' = subscribers alice ∧
     liked_posts u' = liked_posts alice) ∧
    (∀ k, k ≠ "u1" →
       find_one (by_id k) (users (update "u1" _user sample_db).2) =
       find_one (by_id k) (users sample_db)) ∧
    posts (update "u1" _user sample_db).2 = posts sample_db ∧
    comments (update "u1" _user sample_db).2 = comments sample_db.
Proof.
  split; [reflexivity|].
  exact (update_overwrites_profile "u1" _ sample_db alice eq_refl).
Defined.

Lemma update_profile_image_deletes_old_witness :
  find_one (by_id "u2") (users sample_db) = Some bob ∧
  profile_image bob ≠ DEFAULT_PROFILE_IMAGE sample_settings ∧
  sample_ObjectId (profile_image bob) = Ok bob_image ∧
  imgs_profile sample_db !! bob_image = Some [] ∧
  (let r := update_profile_image sample_settings sample_ObjectId
              "u2" "0123456789abcdef01234567" sample_db in
   imgs_profile r.2 = base.delete bob_image (imgs_profile sample_db) ∧
   imgs_profile r.2 !! bob_image = None ∧
   sent r.2 = sent sample_db ++ [delete_image bob_image; update_user "u2"] ∧
   ∃ u' : User,
     r.1 = Ok (Some u') ∧
     find_one (by_id "u2") (users r.2) = Some u' ∧
     profile_image u' = "0123456789abcdef01234567") ∧
  find_one (by_id "u1") (users sample_db) = Some alice ∧
  profile_image alice = DEFAULT_PROFILE_IMAGE sample_settings ∧
  (let r := update_profile_image sample_settings sample_ObjectId
              "u1" "0123456789abcdef01234567" sample_db in
   imgs_profile r.2 = imgs_profile sample_db ∧
   sent r.2 = sent sample_db ++ [update_user "u1"] ∧
   ∃ u' : User,
     r.1 = Ok (Some u') ∧
     find_one (by_id "u1") (users r.2) = Some u' ∧
     profile_image u' = "0123456789abcdef01234567") ∧
  find_one (by_id "u3") (users unparsable_db) = Some unparsable_carol ∧
  profile_image unparsable_carol ≠ DEFAULT_PROFILE_IMAGE sample_settings ∧
  sample_ObjectId (profile_image unparsable_carol) = Raise InvalidId ∧
  update_profile_image sample_settings sample_ObjectId
    "u3" "0123456789abcdef01234567" unparsable_db =
    (Raise InvalidId, unparsable_db).
Proof.
  assert (Hc : profile_image unparsable_carol ≠
               DEFAULT_PROFILE_IMAGE sample_settings)
    by (apply (bool_decide_unpack _); vm_compute; exact I).
  assert (Hd : profile_image bob ≠ DEFAULT_PROFILE_IMAGE sample_settings)
    by (apply (bool_decide_unpack _); vm_compute; exact I).
  split; [reflexivity|]. split; [exact Hd|]. split; [reflexivity|].
  split; [reflexivity|]. split.
  - exact (proj1 (proj2 (update_profile_image_deletes_old sample_settings
                           sample_ObjectId "u2" "0123456789abcdef01234567"
                           sample_db bob eq_refl)) Hd bob_image eq_refl).
  - split; [reflexivity|]. split; [reflexivity|]. split.
    + exact (proj1 (update_profile_image_deletes_old sample_settings
                      sample_ObjectId "u1" "0123456789abcdef01234567"
                      sample_db alice eq_refl) eq_refl).
    + split; [reflexivity|]. split; [exact Hc|]. split; [reflexivity|].
      exact (proj2 (proj2 (update_profile_image_deletes_old sample_settings
                             sample_ObjectId "u3" "0123456789abcdef01234567"
                             unparsable_db unparsable_carol eq_refl))
               Hc InvalidId eq_refl).
Defined.

Lemma delete_removes_only_that_user_witness :
  NoDup (_id <$> users sample_db) ∧
  users (delete "u2" sample_db).2 = [alice; carol] ∧
  let db' := (delete "u2" sample_db).2 in
  (delete "u2" sample_db).1 = Ok tt ∧
  users db' = filter (λ u, _id u ≠ "u2") (users sample_db) ∧
  find_one (by_id "u2") (users db') = None ∧
  (∀ k, k ≠ "u2" →
     find_one (by_id k) (users db') = find_one (by_id k) (users sample_db)) ∧
  (∀ u, u ∈ users sample_db → _id u ≠ "u2" → u ∈ users db') ∧
  posts db' = posts sample_db ∧
  comments db' = comments sample_db ∧
  imgs_profile db' = imgs_profile sample_db.
Proof.
  split; [exact sample_ids_unique|]. split; [reflexivity|].
  exact (delete_removes_only_that_user "u2" sample_db sample_ids_unique).
Defined.

Lemma signup_duplicate_or_created_witness :
  ("alice" ∈ username <$> users sample_db) ∧
  ("dave" ∉ username <$> users sample_db) ∧
  sample_encode_password "secret" = Ok "hashed:secret" ∧
  ("u4" ∉ _id <$> users sample_db) ∧
  signup sample_settings sample_encode_password sample_defaults
    "alice" "secret" "u4" 70 71 sample_db =
    (Ok (refused (HTTPException HTTP_401_UNAUTHORIZED
                    "Account already exists")), sample_db) ∧
  let r := signup sample_settings sample_encode_password sample_defaults
             "dave" "secret" "u4" 70 71 sample_db in
  ∃ u : User,
    r.1 = Ok (created (Some u)) ∧
    users r.2 = users sample_db ++ [u] ∧
    _id u = "u4" ∧ username u = "dave" ∧
    hashed_password u = "hashed:secret" ∧
    profile_image u = DEFAULT_PROFILE_IMAGE sample_settings ∧
    created_at u = 70 ∧ updated_at u = 71.
Proof.
  assert (H1 : "alice" ∈ username <$> users sample_db)
    by (apply (bool_decide_unpack _); vm_compute; exact I).
  assert (H2 : "dave" ∉ username <$> users sample_db)
    by (apply (bool_decide_unpack _); vm_compute; exact I).
  assert (H3 : "u4" ∉ _id <$> users sample_db)
    by (apply (bool_decide_unpack _); vm_compute; exact I).
  split; [exact H1|]. split; [exact H2|]. split; [reflexivity|].
  split; [exact H3|]. split.
  - exact (proj1 (signup_duplicate_or_created sample_settings
                    sample_encode_password sample_defaults
                    "alice" "secret" "u4" 70 71 sample_db) H1).
  - exact (proj2 (signup_duplicate_or_created sample_settings
                    sample_encode_password sample_defaults
                    "dave" "secret" "u4" 70 71 sample_db)
             H2 "hashed:secret" eq_refl H3).
Defined.

(** ** Where the code departs from the specification *)


(** [signup] with a stored username: a 401 handed back, not a 409. *)
Lemma signup_duplicate_is_not_conflict :
  let r := signup sample_settings sample_encode_password sample_defaults
             "alice" "secret" "u4" 70 71 sample_db in
  ("alice" ∈ username <$> users sample_db) ∧
  r.1 = Ok (refused (HTTPException HTTP_401_UNAUTHORIZED
                       "Account already exists")) ∧
  ¬ signals HTTP_409_CONFLICT r.1.
Proof.
  split; [apply (bool_decide_unpack _); vm_compute; exact I|].
  split; [reflexivity|]. intros [detail [H|H]]; discriminate H.
Qed.

(** [get_by_username] with a username nobody has: [None], no exception. *)
Lemma get_by_username_absent_does_not_raise :
  ("dave" ∉ username <$> users sample_db) ∧
  (get_by_username "dave" sample_db).1 = Ok None ∧
  ∀ detail, (get_by_username "dave" sample_db).1 ≠
            Raise (HTTPException HTTP_404_NOT_FOUND detail).
Proof.
  split; [apply (bool_decide_unpack _); vm_compute; exact I|].
  split; [reflexivity | discriminate].
Qed.

(** [update] with only a bio: the stored name is gone, and the age reads
    "None". *)
Lemma update_erases_unprovided_field :
  let _user := mkUserIn None None (Some "hello") None None None in
  let db' := (update "u1" _user sample_db).2 in
  in_name _user = None ∧
  name <$> find_one (by_id "u1") (users sample_db) = Some (Some "Alice") ∧
  name <$> find_one (by_id "u1") (users db') = Some None ∧
  age <$> find_one (by_id "u1") (users db') = Some (Some "None").
Proof. repeat split. Qed.

(** [update_profile_image] on a user whose stored reference is not the
    default one and is no object id: the state is the one a first
    [update_profile_image("u3", "avatar.png")] leaves; the second call
    raises, the old reference stays and nothing is deleted. *)
Lemma update_profile_image_refused_reference :
  let r := update_profile_image sample_settings sample_ObjectId
             "u3" "0123456789abcdef01234567" unparsable_db in
  (update_profile_image sample_settings sample_ObjectId
     "u3" "avatar.png" sample_db).2 = unparsable_db ∧
  find_one (by_id "u3") (users unparsable_db) = Some unparsable_carol ∧
  profile_image unparsable_carol ≠ DEFAULT_PROFILE_IMAGE sample_settings ∧
  r.1 = Raise InvalidId ∧
  imgs_profile r.2 = imgs_profile unparsable_db ∧
  sent r.2 = sent unparsable_db ∧
  profile_image <$> find_one (by_id "u3") (users r.2) = Some "avatar.png" ∧
  profile_image <$> find_one (by_id "u3") (users r.2) ≠
    Some "0123456789abcdef01234567".
Proof.
  split; [reflexivity|]. split; [reflexivity|].
  split; [apply (bool_decide_unpack _); vm_compute; exact I|].
  split; [reflexivity|]. split; [reflexivity|]. split; [reflexivity|].
  split; [reflexivity | discriminate].
Qed.

(** [unset_like] on a post nobody has liked: the counter goes to -1. *)
Lemma unset_like_goes_below_zero :
  let r := unset_like "p2" "u3" sample_db in
  find_one (by_id "u3") (users sample_db) = Some carol ∧
  ("p2" ∉ liked_posts carol) ∧
  likes <$> find_one (by_post_id "p2") (posts sample_db) = Some 0 ∧
  likes <$> find_one (by_post_id "p2") (posts r.2) = Some (-1) ∧
  ∃ p', r.1 = Ok (Some p') ∧ likes p' < 0.
Proof.
  split; [reflexivity|].
  split; [apply (bool_decide_unpack _); vm_compute; exact I|].
  split; [reflexivity|]. split; [reflexivity|].
  eexists. split; [reflexivity | done].
Qed.

(** * Further properties of the repository *)

(** ** More facts about the collection calls *)

Lemma update_absent {D : Type} (q : D -> bool) (upd : D -> D) (c : list D) :
  find_one q c = None → find_one_and_update q upd c = c.
Proof. intros H. apply update_same. intros d Hd. congruence. Qed.

Lemma delete_absent {D : Type} (q : D -> bool) (c : list D) :
  find_one q c = None → find_one_and_delete q c = c.
Proof.
  induction c as [|x c IH]; simpl; [done|].
  destruct (q x); [done|]. intros H. by rewrite IH.
Qed.

Lemma find_one_first {D : Type} (q : D -> bool) (c : list D) (d : D) :
  find_one q c = Some d →
  ∃ before after,
    c = before ++ d :: after ∧ ∀ x, x ∈ before → q x = false.
Proof.
  induction c as [|x c IH]; simpl; [done|].
  destruct (q x) eqn:Hq.
  - intros [= ->]. exists [], c. split; [done|].
    intros y Hy. by apply elem_of_nil in Hy.
  - intros H. destruct (IH H) as (before & after & -> & Hb).
    exists (x :: before), after. split; [done|].
    intros y [->|Hy]%elem_of_cons; auto.
Qed.

Lemma users_present_id (i : string) (c : list User) :
  i ∈ _id <$> c → ∃ u, find_one (by_id i) c = Some u.
Proof. apply (find_one_present _id). Qed.

Lemma users_update_commute (f g : User -> User) (i j : string) c :
  i ≠ j → keeps_id f → keeps_id g →
  find_one_and_update (by_id j) g (find_one_and_update (by_id i) f c) =
    find_one_and_update (by_id i) f (find_one_and_update (by_id j) g c).
Proof. intros Hne Hf Hg. by apply (update_commute _id). Qed.

Lemma set_name_surname_keeps_id n s : keeps_id (set_name_surname n s).
Proof. by intros u. Qed.
Lemma set_username_keeps_id n : keeps_id (set_username n).
Proof. by intros u. Qed.
Lemma set_bio_keeps_id b : keeps_id (set_bio b).
Proof. by intros u. Qed.

#[export] Hint Resolve set_name_surname_keeps_id set_username_keeps_id
  set_bio_keeps_id : repo.

(** The shape shared by the profile edits: one [find_one_and_update], then
    the document is read again. *)
Lemma edit_stored (i : string) (upd : User -> User) (db : Database)
    (u : User) :
  keeps_id upd →
  find_one (by_id i) (users db) = Some u →
  (users_find_one_and_update i upd ;; users_find_one (by_id i)) db =
    (Ok (Some (upd u)),
     with_users (find_one_and_update (by_id i) upd) (update_user i) db).
Proof.
  intros Hk Hu. unfold bind, users_find_one_and_update, write,
    users_find_one, read. simpl.
  rewrite users_find_one_update by done. rewrite decide_True by done.
  by rewrite Hu.
Qed.

Lemma edit_absent (i : string) (upd : User -> User) (db : Database) :
  find_one (by_id i) (users db) = None →
  (users_find_one_and_update i upd ;; users_find_one (by_id i)) db =
    (Ok None, with_users (λ c, c) (update_user i) db).
Proof.
  intros Hu. unfold bind, users_find_one_and_update, write,
    users_find_one, read, with_users. simpl.
  rewrite (update_absent _ _ _ Hu). by rewrite Hu.
Qed.

(** ** Listing and lookups *)

(** X1 [get_all]: the answer is a prefix of the collection in storage
    order, the database is not written; a positive limit gives exactly the
    first [limit] users (all of them when fewer are stored), and limit 0
    gives every user. *)
Theorem get_all_prefix (limit skip : Z) (db : Database) :
  ∃ l, get_all limit skip db = (Ok l, db) ∧
       l `prefix_of` users db ∧
       (0 < limit →
        l = take (Z.to_nat limit) (users db) ∧
        length l = Nat.min (Z.to_nat limit) (length (users db))) ∧
       (limit = 0 → l = users db).
Proof.
  eexists. split; [done|]. unfold find.
  destruct (Z.eqb_spec limit 0) as [->|Hne].
  - split; [done|]. split; [lia | done].
  - split; [apply prefix_take|]. split; [|done].
    intros Hl. rewrite Z.abs_eq by lia. split; [done|]. apply length_take.
Qed.

(** X2 [get_by_id]: for an id some stored user has, the answer is the
    first stored record with that id, and nothing is written. *)
Theorem get_by_id_stored (i : string) (db : Database) :
  i ∈ _id <$> users db →
  ∃ u before after,
    get_by_id i db = (Ok (Some u), db) ∧
    _id u = i ∧
    users db = before ++ u :: after ∧
    ∀ x, x ∈ before → _id x ≠ i.
Proof.
  intros [u Hu]%users_present_id.
  destruct (find_one_first _ _ _ Hu) as (before & after & Hc & Hb).
  exists u, before, after. split.
  - unfold get_by_id, bind, users_find_one, read. by rewrite Hu.
  - split; [by apply users_find_one_id in Hu|]. split; [done|].
    intros x Hx. specialize (Hb x Hx).
    by apply bool_decide_eq_false in Hb.
Qed.

(** X3 [get_by_email]: a stored email gives the first record carrying it;
    an email nobody has raises 404 with the email in the message.  Nothing
    is written either way. *)
Theorem get_by_email_found_or_404 (e : string) (db : Database) :
  (Some e ∈ email <$> users db →
   ∃ u, get_by_email e db = (Ok (Some u), db) ∧ email u = Some e ∧
        u ∈ users db) ∧
  (Some e ∉ email <$> users db →
   get_by_email e db =
     (Raise (HTTPException HTTP_404_NOT_FOUND
               ("User with email: " +:+ e +:+ " not found")), db)).
Proof.
  split.
  - intros [u Hu]%(find_one_present email).
    exists u. unfold get_by_email, bind, users_find_one, read.
    change (find_one (by_email e) (users db) = Some u) in Hu.
    rewrite Hu. split; [done|].
    apply find_one_Some in Hu as [Hq Hin]. split; [|done].
    by apply bool_decide_eq_true in Hq.
  - intros Hn%(find_one_absent email).
    unfold get_by_email, bind, users_find_one, read.
    change (find_one (by_email e) (users db) = None) in Hn.
    by rewrite Hn.
Qed.

(** ** Profile edits, continued *)

(** X4: the four profile edits do not insert: for an id no stored user
    has, each returns [None] and leaves users, posts, comments and the image
    bucket as they were. *)
Theorem edits_of_absent_id_store_nothing (user_id : string) (_user : UserIn)
    (n1 n2 n3 n4 : string) (db : Database) :
  user_id ∉ _id <$> users db →
  let stores_nothing (m : M (option User)) :=
    (m db).1 = Ok None ∧
    users (m db).2 = users db ∧ posts (m db).2 = posts db ∧
    comments (m db).2 = comments db ∧
    imgs_profile (m db).2 = imgs_profile db in
  stores_nothing (update user_id _user) ∧
  stores_nothing (update_name_surname user_id n1 n2) ∧
  stores_nothing (update_username user_id n3) ∧
  stores_nothing (update_bio user_id n4).
Proof.
  intros Hi%users_absent_id stores_nothing. subst stores_nothing. cbv beta.
  unfold update, update_name_surname, update_username, update_bio.
  by rewrite !edit_absent.
Qed.

(** X5: on a stored user, [update_name_surname], [update_username] and
    [update_bio] write the fields they name and no other, leave every other
    user as stored, and return the record as it is after the write. *)
Theorem narrow_edits_write_their_fields (user_id : string)
    (new_name new_surname new_username new_bio : string)
    (db : Database) (u : User) :
  find_one (by_id user_id) (users db) = Some u →
  let edits (m : M (option User)) (wrote : User -> Prop) :=
    ∃ u' : User,
      (m db).1 = Ok (Some u') ∧
      find_one (by_id user_id) (users (m db).2) = Some u' ∧
      wrote u' ∧ untouched_by_narrow_edits u u' ∧
      (∀ k, k ≠ user_id →
         find_one (by_id k) (users (m db).2) =
         find_one (by_id k) (users db)) ∧
      posts (m db).2 = posts db ∧ comments (m db).2 = comments db in
  edits (update_name_surname user_id new_name new_surname)
    (λ u', name u' = Some new_name ∧ surname u' = Some new_surname ∧
           username u' = username u ∧ bio u' = bio u) ∧
  edits (update_username user_id new_username)
    (λ u', username u' = new_username ∧ name u' = name u ∧
           surname u' = surname u ∧ bio u' = bio u) ∧
  edits (update_bio user_id new_bio)
    (λ u', bio u' = Some new_bio ∧ username u' = username u ∧
           name u' = name u ∧ surname u' = surname u).
Proof.
  intros Hu edits.
  assert (Hedit : ∀ upd (wrote : User -> Prop),
            keeps_id upd → wrote (upd u) →
            untouched_by_narrow_edits u (upd u) →
            edits (users_find_one_and_update user_id upd ;;
                   users_find_one (by_id user_id)) wrote).
  { intros upd wrote Hk Hw Hun. unfold edits. exists (upd u).
    rewrite (edit_stored _ _ _ u) by done. simpl.
    split; [done|]. split.
    { rewrite users_find_one_update by done. rewrite decide_True by done.
      by rewrite Hu. }
    split; [done|]. split; [done|]. split; [|done].
    intros k Hk'. rewrite users_find_one_update by done.
    by rewrite decide_False. }
  split; [|split].
  - apply (Hedit (set_name_surname new_name new_surname));
      auto with repo; by repeat split.
  - apply (Hedit (set_username new_username));
      auto with repo; by repeat split.
  - apply (Hedit (set_bio new_bio)); auto with repo; by repeat split.
Qed.

Lemma NoDup_fmap_same {A B : Type} (f : A -> B) (l : list A) (x y : A) :
  NoDup (f <$> l) → x ∈ l → y ∈ l → f x = f y → x = y.
Proof.
  induction l as [|a l IH]; [by intros _ ?%elem_of_nil|].
  rewrite fmap_cons. intros [Ha Hl]%NoDup_cons Hx Hy Hf.
  apply elem_of_cons in Hx as [->|Hx]; apply elem_of_cons in Hy as [->|Hy].
  - done.
  - exfalso. apply Ha. rewrite Hf. apply list_elem_of_fmap. by exists y.
  - exfalso. apply Ha. rewrite <- Hf. apply list_elem_of_fmap. by exists x.
  - by apply IH.
Qed.

(** X6: [update_username] does not look for the new name among the stored
    users: given to one stored user the username of another, it leaves two
    records with the same username, so usernames are no longer unique. *)
Theorem update_username_can_duplicate (i j : string) (db : Database)
    (ui uj : User) :
  i ≠ j →
  find_one (by_id i) (users db) = Some ui →
  find_one (by_id j) (users db) = Some uj →
  let db' := (update_username i (username uj) db).2 in
  ∃ ui' : User,
    find_one (by_id i) (users db') = Some ui' ∧
    find_one (by_id j) (users db') = Some uj ∧
    username ui' = username uj ∧
    ¬ NoDup (username <$> users db').
Proof.
  intros Hne Hi Hj db'. subst db'. unfold update_username.
  rewrite (edit_stored _ _ _ ui) by auto with repo. simpl.
  exists (set_username (username uj) ui).
  assert (Hi' : find_one (by_id i)
            (find_one_and_update (by_id i) (set_username (username uj))
               (users db)) = Some (set_username (username uj) ui)).
  { rewrite users_find_one_update by auto with repo.
    rewrite decide_True by done. by rewrite Hi. }
  assert (Hj' : find_one (by_id j)
            (find_one_and_update (by_id i) (set_username (username uj))
               (users db)) = Some uj).
  { rewrite users_find_one_update by auto with repo.
    by rewrite decide_False. }
  repeat split; try done.
  intros Hnd.
  pose proof (users_find_one_id _ _ _ Hi') as Hid1.
  pose proof (users_find_one_id _ _ _ Hj') as Hid2.
  apply find_one_Some in Hi' as [_ Hin1].
  apply find_one_Some in Hj' as [_ Hin2].
  pose proof (NoDup_fmap_same username _ _ _ Hnd Hin1 Hin2 eq_refl) as Heq.
  rewrite Heq in Hid1. congruence.
Qed.

(** ** Writes that keep the set of users *)

(** X7: profile edits, the profile image swap, subscribing, unsubscribing,
    liking and unliking never add or remove a user and never change an id:
    the sequence of stored ids is the same after the call, whatever the
    arguments and whether or not the call raises. *)
Theorem writes_keep_the_stored_ids (settings : Settings)
    (ObjectId : string -> result object_id) (i j n1 n2 : string)
    (_user : UserIn) (db : Database) :
  let same_ids (db' : Database) := _id <$> users db' = _id <$> users db in
  same_ids (update i _user db).2 ∧
  same_ids (update_name_surname i n1 n2 db).2 ∧
  same_ids (update_username i n1 db).2 ∧
  same_ids (update_bio i n1 db).2 ∧
  same_ids (update_profile_image settings ObjectId i n1 db).2 ∧
  same_ids (subscribe i j db).2 ∧
  same_ids (unsubsribe i j db).2 ∧
  same_ids (set_like j i db).2 ∧
  same_ids (unset_like j i db).2.
Proof.
  intros same_ids. subst same_ids. cbv beta.
  repeat split; simpl;
    rewrite ?users_update_keeps_ids by auto with repo; try done.
  unfold update_profile_image, bind, users_find_one, read.
  destruct (find_one (by_id i) (users db)) as [u|]; simpl; [|done].
  case_bool_decide; simpl.
  - unfold lift. destruct (ObjectId (profile_image u)); simpl; [|done].
    by rewrite users_update_keeps_ids by auto with repo.
  - by rewrite users_update_keeps_ids by auto with repo.
Qed.

(** ** Deleting, continued *)

Lemma delete_length {D : Type} (q : D -> bool) (c : list D) (d : D) :
  find_one q c = Some d →
  S (length (find_one_and_delete q c)) = length c.
Proof.
  induction c as [|x c IH]; simpl; [done|].
  destruct (q x); [done|]. intros H. simpl. by rewrite IH.
Qed.

(** X8: [delete] never raises.  For an id no stored user has it leaves the
    collection as it was; for a stored id it removes one record and only
    one; with unique ids a second [delete] of the same id changes nothing
    more. *)
Theorem delete_at_most_one (user_id : string) (db : Database) :
  (delete user_id db).1 = Ok tt ∧
  (user_id ∉ _id <$> users db →
   users (delete user_id db).2 = users db) ∧
  (user_id ∈ _id <$> users db →
   S (length (users (delete user_id db).2)) = length (users db)) ∧
  (NoDup (_id <$> users db) →
   users (delete user_id (delete user_id db).2).2 =
   users (delete user_id db).2).
Proof.
  split; [done|]. simpl. split; [|split].
  - intros Hi%users_absent_id. by apply delete_absent.
  - intros [u Hu]%users_present_id. by apply (delete_length _ _ u).
  - intros Hnd. apply delete_absent.
    assert (Hf : find_one_and_delete (by_id user_id) (users db) =
                 filter (λ u, _id u ≠ user_id) (users db))
      by apply (delete_filter _id _ _ Hnd).
    rewrite Hf. apply (find_one_filter_ne _id).
Qed.

(** ** The profile image swap, continued *)

(** X9: [update_profile_image] fails before it writes anything: for an id
    no stored user has it raises [TypeError]; for a stored user whose
    non-default image reference [ObjectId] refuses it raises what [ObjectId]
    raised.  In both cases the database is as before: no file is deleted and
    the new reference is not recorded. *)
Theorem update_profile_image_failures (settings : Settings)
    (ObjectId : string -> result object_id) (user_id file_id : string)
    (db : Database) :
  (user_id ∉ _id <$> users db →
   update_profile_image settings ObjectId user_id file_id db =
     (Raise TypeError, db)) ∧
  (∀ u e,
     find_one (by_id user_id) (users db) = Some u →
     profile_image u ≠ DEFAULT_PROFILE_IMAGE settings →
     ObjectId (profile_image u) = Raise e →
     update_profile_image settings ObjectId user_id file_id db =
       (Raise e, db)).
Proof.
  split.
  - intros Hi%users_absent_id.
    by apply update_profile_image_missing_user.
  - intros u e Hu Hd Ho.
    by apply (update_profile_image_invalid_reference _ _ _ _ _ u).
Qed.

(** ** Accounts: signing up and logging in *)

Lemma signup_taken (settings : Settings)
    (encode_password : string -> result string) (User_defaults : User)
    (n password inserted_id : string) (now1 now2 : datetime)
    (db : Database) :
  n ∈ username <$> users db →
  signup settings encode_password User_defaults n password inserted_id
    now1 now2 db =
    (Ok (refused (HTTPException 401 "Account already exists")), db).
Proof.
  intros Hn. unfold signup, bind. by rewrite (check_username_taken _ _ Hn).
Qed.

(** X10: [signup] keeps usernames and ids unique and never drops or
    reorders a stored user, whatever it is called with: the old collection
    is a prefix of the new one. *)
Theorem signup_keeps_accounts_unique (settings : Settings)
    (encode_password : string -> result string) (User_defaults : User)
    (n password inserted_id : string) (now1 now2 : datetime)
    (db : Database) :
  let db' := (signup settings encode_password User_defaults n password
                inserted_id now1 now2 db).2 in
  users db `prefix_of` users db' ∧
  (NoDup (username <$> users db) → NoDup (username <$> users db')) ∧
  (NoDup (_id <$> users db) → NoDup (_id <$> users db')).
Proof.
  intros db'. subst db'.
  destruct (decide (n ∈ username <$> users db)) as [Hn|Hn].
  { by rewrite signup_taken. }
  destruct (encode_password password) as [hashed|e] eqn:He;
    [destruct (decide (inserted_id ∈ _id <$> users db)) as [Hi|Hi]|].
  - rewrite signup_failed by eauto. done.
  - rewrite (signup_created _ _ _ _ _ _ hashed) by done. simpl.
    split; [by apply prefix_app_r|].
    split; intros Hnd; rewrite fmap_app; apply NoDup_app;
      (split; [done|]); (split; [|apply NoDup_singleton]); simpl;
      intros x Hx ->%list_elem_of_singleton; done.
  - rewrite signup_failed by eauto. done.
Qed.

Lemma users_find_username_first (n : string) (c : list User) (u : User) :
  find_one (by_username n) c = Some u → username u = n ∧ u ∈ c.
Proof.
  intros [Hq Hin]%find_one_Some. split; [|done].
  by apply bool_decide_eq_true in Hq.
Qed.

Lemma login_unknown (verify_password : string -> string -> result bool)
    (n password : string) (db : Database) :
  find_one (by_username n) (users db) = None →
  login verify_password n password db =
    (Ok (rejected (HTTPException 401 "Invalid username")), db).
Proof.
  intros Hn.
  unfold login, get_by_username, check_username, users_find_one, read, bind.
  by rewrite Hn.
Qed.

Lemma login_known (verify_password : string -> string -> result bool)
    (n password : string) (db : Database) (u : User) :
  find_one (by_username n) (users db) = Some u →
  login verify_password n password db =
    (match verify_password password (hashed_password u) with
     | Ok true => Ok (logged_in (Some u))
     | Ok false => Ok (rejected (HTTPException 401 "Invalid password"))
     | Raise e => Raise e
     end, db).
Proof.
  intros Hu.
  unfold login, get_by_username, check_username, users_find_one, read,
    lift, bind. rewrite Hu. simpl.
  by destruct (verify_password password (hashed_password u)) as [[]|].
Qed.

(** X11 [login]: it never writes.  An unknown username gives the 401
    "Invalid username" before any password is checked; for a known one the
    password is checked against the hash of the first stored record with
    that username, a refusal gives the 401 "Invalid password", an acceptance
    gives that record back, and an exception of the checker goes through. *)
Theorem login_outcomes (verify_password : string -> string -> result bool)
    (n password : string) (db : Database) :
  (n ∉ username <$> users db →
   login verify_password n password db =
     (Ok (rejected (HTTPException HTTP_401_UNAUTHORIZED "Invalid username")),
      db)) ∧
  (n ∈ username <$> users db →
   ∃ u before after,
     users db = before ++ u :: after ∧ username u = n ∧
     (∀ x, x ∈ before → username x ≠ n) ∧
     login verify_password n password db =
       (match verify_password password (hashed_password u) with
        | Ok true => Ok (logged_in (Some u))
        | Ok false =>
            Ok (rejected (HTTPException HTTP_401_UNAUTHORIZED
                            "Invalid password"))
        | Raise e => Raise e
        end, db)).
Proof.
  split.
  - intros Hn%users_absent_username. by apply login_unknown.
  - intros [u Hu]%users_present_username.
    destruct (find_one_first _ _ _ Hu) as (before & after & Hc & Hb).
    exists u, before, after. split; [done|].
    split; [by apply users_find_username_first in Hu as [? _]|].
    split; [|by apply login_known].
    intros x Hx. specialize (Hb x Hx). by apply bool_decide_eq_false in Hb.
Qed.

(** X12: an account that [signup] has just created can log in: when the
    checker accepts the password against the hash the hasher produced,
    [login] with the same username and password returns the record
    [signup] returned. *)
Theorem signup_then_login (settings : Settings)
    (encode_password : string -> result string)
    (verify_password : string -> string -> result bool)
    (User_defaults : User)
    (n password inserted_id hashed : string) (now1 now2 : datetime)
    (db : Database) :
  n ∉ username <$> users db →
  inserted_id ∉ _id <$> users db →
  encode_password password = Ok hashed →
  verify_password password hashed = Ok true →
  let r := signup settings encode_password User_defaults n password
             inserted_id now1 now2 db in
  ∃ u : User,
    r.1 = Ok (created (Some u)) ∧
    login verify_password n password r.2 = (Ok (logged_in (Some u)), r.2).
Proof.
  intros Hn Hi He Hv r. subst r.
  rewrite (signup_created _ _ _ _ _ _ hashed) by done.
  eexists. split; [done|]. cbn [snd].
  erewrite login_known; cycle 1.
  { simpl. rewrite find_one_app.
    rewrite (users_absent_username _ _ Hn). unfold by_username. simpl.
    by rewrite bool_decide_eq_true_2. }
  simpl. by rewrite Hv.
Qed.

(** X13 [get_current_user]: it never writes and never raises on its own.
    What the token decoder raises goes through; a decoded username nobody
    has gives [None], not an error; a stored one gives the first record
    with that username. *)
Theorem get_current_user_outcomes (decode_token : string -> result string)
    (token : string) (db : Database) :
  (∀ e, decode_token token = Raise e →
     get_current_user decode_token token db = (Raise e, db)) ∧
  (∀ n, decode_token token = Ok n → n ∉ username <$> users db →
     get_current_user decode_token token db = (Ok None, db)) ∧
  (∀ n, decode_token token = Ok n → n ∈ username <$> users db →
     ∃ u, get_current_user decode_token token db = (Ok (Some u), db) ∧
          username u = n ∧ u ∈ users db).
Proof.
  unfold get_current_user, bind, lift, get_by_username, users_find_one, read.
  repeat split.
  - intros e ->. done.
  - intros n -> Hn%users_absent_username. by rewrite Hn.
  - intros n -> [u Hu]%users_present_username. exists u. rewrite Hu.
    split; [done|]. by apply users_find_username_first.
Qed.

(** ** Subscriptions, continued *)

Lemma pull_absent (x : string) (l : list string) : x ∉ l → pull x l = l.
Proof.
  intros Hx. apply filter_keeps_all. intros y Hy ->. by apply Hx.
Qed.

(** X14: for two stored users where A does not follow B yet (B is not in
    A's subscriptions and A is not in B's subscribers), [subscribe(A, B)]
    followed by [unsubsribe(A, B)] gives back the users collection exactly
    as it was; posts and comments are not touched. *)
Theorem subscribe_then_unsubscribe_restores (A B : string) (db : Database)
    (a b : User) :
  find_one (by_id A) (users db) = Some a →
  find_one (by_id B) (users db) = Some b →
  B ∉ subscriptions a →
  A ∉ subscribers b →
  let db2 := (unsubsribe A B (subscribe A B db).2).2 in
  users db2 = users db ∧ posts db2 = posts db ∧ comments db2 = comments db.
Proof.
  intros Ha Hb HB HA db2. subst db2. simpl. split; [|done].
  destruct (decide (A = B)) as [->|Hne].
  - rewrite Ha in Hb. injection Hb as <-.
    rewrite !users_update_update by (intros ?; done).
    apply update_same. intros d Hd. rewrite Ha in Hd. injection Hd as <-.
    destruct a; unfold on_subscriptions, on_subscribers; simpl in *.
    f_equal; by apply pull_push_fresh.
  - rewrite (users_update_commute (on_subscribers (push A))
               (on_subscriptions (pull B)) B A) by auto with repo.
    rewrite users_update_update by auto with repo.
    rewrite users_update_update by auto with repo.
    assert (Hin : find_one_and_update (by_id A)
                    (on_subscriptions (pull B) ∘ on_subscriptions (push B))
                    (users db) = users db).
    { apply update_same. intros d Hd. rewrite Ha in Hd. injection Hd as <-.
      destruct a; unfold on_subscriptions; simpl in *.
      f_equal. by apply pull_push_fresh. }
    rewrite Hin.
    apply update_same. intros d Hd. rewrite Hb in Hd. injection Hd as <-.
    destruct b; unfold on_subscribers; simpl in *.
    f_equal. by apply pull_push_fresh.
Qed.

(** X15: [subscribe] does not check that both users exist, and its two
    writes are independent.  With a subscriber id nobody has and a stored
    target B, B's subscribers still get that id and no record is created
    for it, so [get_subscribers(B)] then ends with [None]. *)
Theorem subscribe_of_absent_user (A B : string) (db : Database) (b : User) :
  A ∉ _id <$> users db →
  find_one (by_id B) (users db) = Some b →
  let db1 := (subscribe A B db).2 in
  ∃ b1 l,
    find_one (by_id A) (users db1) = None ∧
    find_one (by_id B) (users db1) = Some b1 ∧
    subscribers b1 = subscribers b ++ [A] ∧
    subscriptions b1 = subscriptions b ∧
    get_subscribers B db1 = (Ok (l ++ [None]), db1) ∧
    length l = length (subscribers b).
Proof.
  intros HA%users_absent_id Hb db1.
  assert (Hne : A ≠ B) by (intros ->; congruence).
  assert (Hus : users db1 =
            find_one_and_update (by_id B) (on_subscribers (push A))
              (users db)).
  { subst db1. simpl. by rewrite (update_absent _ _ _ HA). }
  assert (HA1 : find_one (by_id A) (users db1) = None).
  { rewrite Hus. rewrite users_find_one_update by auto with repo.
    by rewrite decide_False. }
  assert (Hb1 : find_one (by_id B) (users db1) =
                Some (on_subscribers (push A) b)).
  { rewrite Hus. rewrite users_find_one_update by auto with repo.
    rewrite decide_True by done. by rewrite Hb. }
  exists (on_subscribers (push A) b),
    ((λ i, find_one (by_id i) (users db1)) <$> subscribers b).
  split; [done|]. split; [done|]. split; [done|]. split; [done|].
  split; [|by rewrite length_fmap].
  unfold get_subscribers. rewrite (get_sub_helper_spec _ _ _ _ Hb1).
  change (field subscribers_field (on_subscribers (push A) b))
    with (subscribers b ++ [A]).
  rewrite fmap_app.
  change ((λ i, find_one (by_id i) (users db1)) <$> [A])
    with [find_one (by_id A) (users db1)].
  by rewrite HA1.
Qed.

(** X16: deleting a user leaves the ids others hold: for a stored user A
    and another id B, after [delete(B)] A's record is as before and
    [get_subscriptions(A)] has [None] at every place where A's
    subscriptions hold B, and the record found before at every other
    place. *)
Theorem delete_leaves_dangling_subscriptions (A B : string) (db : Database)
    (a : User) :
  NoDup (_id <$> users db) →
  A ≠ B →
  find_one (by_id A) (users db) = Some a →
  let db' := (delete B db).2 in
  ∃ res,
    find_one (by_id A) (users db') = Some a ∧
    get_subscriptions A db' = (Ok res, db') ∧
    length res = length (subscriptions a) ∧
    ∀ (k : nat) (i : string), subscriptions a !! k = Some i →
      res !! k = Some (if decide (i = B) then None
                       else find_one (by_id i) (users db)).
Proof.
  intros Hnd Hne Ha db'.
  assert (Hgone : find_one (by_id B) (users db') = None).
  { subst db'. simpl.
    assert (Hf : find_one_and_delete (by_id B) (users db) =
                 filter (λ u, _id u ≠ B) (users db))
      by apply (delete_filter _id _ _ Hnd).
    rewrite Hf. apply (find_one_filter_ne _id). }
  assert (Hkeep : ∀ k, k ≠ B →
            find_one (by_id k) (users db') = find_one (by_id k) (users db)).
  { intros k Hk. subst db'. simpl. by apply (find_one_delete_ne _id). }
  assert (Ha' : find_one (by_id A) (users db') = Some a)
    by (by rewrite Hkeep).
  clearbody db'.
  eexists. split; [done|]. unfold get_subscriptions.
  split; [by apply get_sub_helper_spec|]. split; [by rewrite length_fmap|].
  intros k i Hk. simpl. rewrite list_lookup_fmap, Hk. simpl.
  destruct (decide (i = B)) as [->|Hi]; [by rewrite Hgone|by rewrite Hkeep].
Qed.

(** X17: for an id no stored user has, [get_subscribers] and
    [get_subscriptions] raise [TypeError] (the lookup gives [None], which is
    then subscripted); they do not answer with a 404 or an empty list. *)
Theorem get_subs_of_absent_user (user_id : string) (db : Database) :
  user_id ∉ _id <$> users db →
  get_subscribers user_id db = (Raise TypeError, db) ∧
  get_subscriptions user_id db = (Raise TypeError, db).
Proof.
  intros Hi%users_absent_id.
  split; by apply get_sub_helper_missing.
Qed.

(** ** Likes, continued *)

Lemma posts_absent_id (i : string) (c : list Post) :
  i ∉ post_id <$> c → find_one (by_post_id i) c = None.
Proof. apply (find_one_absent post_id). Qed.

(** X18: the two writes of [set_like] do not depend on each other, and
    neither checks that its document exists.  With a user id nobody has, a
    stored post still gains a like and no user changes; with a post id no
    post has, a stored user still gets the id in [liked_posts], no post
    changes, and the call returns [None]. *)
Theorem set_like_with_a_missing_party (P U : string) (db : Database) :
  (U ∉ _id <$> users db →
   ∀ p, find_one (by_post_id P) (posts db) = Some p →
     ∃ p', (set_like P U db).1 = Ok (Some p') ∧
           likes p' = likes p + 1 ∧
           users (set_like P U db).2 = users db) ∧
  (P ∉ post_id <$> posts db →
   ∀ u, find_one (by_id U) (users db) = Some u →
     ∃ u', (set_like P U db).1 = Ok None ∧
           posts (set_like P U db).2 = posts db ∧
           find_one (by_id U) (users (set_like P U db).2) = Some u' ∧
           liked_posts u' = liked_posts u ++ [P]).
Proof.
  destruct (set_like_run P U db) as (Hus & Hps & Hr).
  rewrite Hr, Hps, Hus. split.
  - intros HU%users_absent_id p Hp. exists (inc_likes 1 p).
    rewrite posts_find_one_update by apply inc_likes_keeps_id.
    rewrite decide_True by done. rewrite Hp.
    by rewrite (update_absent _ _ _ HU).
  - intros HP%posts_absent_id u Hu. exists (on_liked_posts (push P) u).
    rewrite (update_absent _ _ _ HP). rewrite HP.
    rewrite users_find_one_update by auto with repo.
    rewrite decide_True by done. by rewrite Hu.
Qed.

(** X19: nothing stops a second like, and one unlike pulls every entry:
    after [set_like] twice and [unset_like] once by the same stored user on
    the same stored post, the counter stands one above where it started
    while the post is no longer in the user's [liked_posts]. *)
Theorem like_twice_unlike_once (P U : string) (db : Database)
    (u : User) (p : Post) :
  find_one (by_id U) (users db) = Some u →
  find_one (by_post_id P) (posts db) = Some p →
  let db3 := (unset_like P U (set_like P U (set_like P U db).2).2).2 in
  ∃ (p3 : Post) (u3 : User),
    find_one (by_post_id P) (posts db3) = Some p3 ∧
    likes p3 = likes p + 1 ∧
    find_one (by_id U) (users db3) = Some u3 ∧
    (P ∉ liked_posts u3).
Proof.
  intros Hu Hp db3. subst db3. simpl.
  exists (inc_likes (-1) (inc_likes 1 (inc_likes 1 p))),
    (on_liked_posts (pull P)
       (on_liked_posts (push P) (on_liked_posts (push P) u))).
  rewrite !posts_find_one_update by apply inc_likes_keeps_id.
  rewrite !users_find_one_update by auto with repo.
  rewrite !decide_True by done. rewrite Hu, Hp. simpl.
  split; [done|]. split; [lia|]. split; [done|].
  intros [? _]%pull_spec. done.
Qed.

(** ** Methods that only read *)

(** X20: the listing, the lookups, the subscriber and subscription
    listings, the username check, [login] and [get_current_user] leave the
    database exactly as it was, whatever they return or raise. *)
Theorem reads_do_not_write
    (verify_password : string -> string -> result bool)
    (decode_token : string -> result string)
    (i e n password token : string) (limit skip : Z) (db : Database) :
  (get_all limit skip db).2 = db ∧
  (get_by_id i db).2 = db ∧
  (get_by_email e db).2 = db ∧
  (get_subscribers i db).2 = db ∧
  (get_subscriptions i db).2 = db ∧
  (check_username n db).2 = db ∧
  (get_by_username n db).2 = db ∧
  (get_profile_image_id i db).2 = db ∧
  (login verify_password n password db).2 = db ∧
  (get_current_user decode_token token db).2 = db.
Proof.
  split; [done|].
  split. { unfold get_by_id, bind, users_find_one, read.
           by destruct (find_one _ _). }
  split. { unfold get_by_email, bind, users_find_one, read.
           by destruct (find_one _ _). }
  assert (Hsub : ∀ w, (__get_sub_helper__ i w db).2 = db).
  { intros w. destruct (find_one (by_id i) (users db)) as [u|] eqn:Hu.
    - by rewrite (get_sub_helper_spec _ _ _ _ Hu).
    - by rewrite (get_sub_helper_missing _ _ _ Hu). }
  split; [apply Hsub|]. split; [apply Hsub|].
  split. { unfold check_username, bind, users_find_one, read.
           by destruct (find_one _ _). }
  split; [done|]. split; [done|].
  split.
  - destruct (find_one (by_username n) (users db)) as [u|] eqn:Hu.
    + rewrite (login_known _ _ _ _ _ Hu).
      by destruct (verify_password _ _) as [[]|].
    + by rewrite (login_unknown _ _ _ _ Hu).
  - unfold get_current_user, bind, lift. by destruct (decode_token token).
Qed.

(** ** The post endpoints *)

Lemma get_current_user_unknown (decode_token : string -> result string)
    (token n : string) (db : Database) :
  decode_token token = Ok n →
  find_one (by_username n) (users db) = None →
  get_current_user decode_token token db = (Ok None, db).
Proof.
  intros Hd Hn.
  unfold get_current_user, bind, lift, get_by_username, users_find_one, read.
  by rewrite Hd, Hn.
Qed.

Lemma get_current_user_known (decode_token : string -> result string)
    (token n : string) (db : Database) (u : User) :
  decode_token token = Ok n →
  find_one (by_username n) (users db) = Some u →
  get_current_user decode_token token db = (Ok (Some u), db).
Proof.
  intros Hd Hn.
  unfold get_current_user, bind, lift, get_by_username, users_find_one, read.
  by rewrite Hd, Hn.
Qed.

(** X21: a valid token whose username is no longer stored makes the
    endpoints that resolve the user raise [TypeError]: the user comes back
    as [None] and is subscripted.  [delete_post], [get_feed],
    [get_profile_feed] and [create_comment] then have not called the post
    repository, the database is untouched; [create] has already stored the
    uploaded file, the database is the one [posts.get_file_id] left. *)
Theorem endpoints_with_unresolved_user
    {UploadFile PostIn CommentIn Deleted : Type}
    (decode_token : string -> result string)
    (posts_get_file_id : UploadFile -> M string)
    (posts_create : string -> string -> PostIn -> M Post)
    (posts_delete : string -> string -> M Deleted)
    (posts_get_feed posts_get_profile_feed : string -> M (list Post))
    (posts_post_comment : string -> string -> CommentIn -> M Comment)
    (credentials n p_id : string) (file : UploadFile) (p : PostIn)
    (c : CommentIn) (db : Database) :
  decode_token credentials = Ok n →
  n ∉ username <$> users db →
  post.delete_post Deleted decode_token posts_delete p_id credentials db =
    (Raise TypeError, db) ∧
  post.get_feed decode_token posts_get_feed credentials db =
    (Raise TypeError, db) ∧
  post.get_profile_feed decode_token posts_get_profile_feed credentials db =
    (Raise TypeError, db) ∧
  post.create_comment CommentIn decode_token posts_post_comment p_id
    credentials c db = (Raise TypeError, db) ∧
  (∀ file_id db1,
     posts_get_file_id file db = (Ok file_id, db1) →
     users db1 = users db →
     post.create UploadFile PostIn decode_token posts_get_file_id
       posts_create credentials file p db = (Raise TypeError, db1)).
Proof.
  intros Hd Hn%users_absent_username.
  unfold post.delete_post, post.get_feed, post.get_profile_feed,
    post.create_comment, post.create.
  repeat split.
  1-4: unfold bind at 1;
       by rewrite (get_current_user_unknown _ _ _ _ Hd Hn).
  intros file_id db1 Hf Hus. unfold bind at 1. rewrite Hf.
  unfold bind at 1. rewrite <- Hus in Hn.
  by rewrite (get_current_user_unknown _ _ _ _ Hd Hn).
Qed.

(** X22: the endpoints act for the user of the token and no other: when
    the token decodes to a stored username, each one calls the post
    repository with the [_id] of the first record with that username;
    [delete_post] returns [None] whatever [posts.delete] returned, of
    whatever type, and [create] looks the user up after the file is
    stored. *)
Theorem endpoints_act_for_the_token_user
    {UploadFile PostIn CommentIn Deleted : Type}
    (decode_token : string -> result string)
    (posts_get_file_id : UploadFile -> M string)
    (posts_create : string -> string -> PostIn -> M Post)
    (posts_delete : string -> string -> M Deleted)
    (posts_get_feed posts_get_profile_feed : string -> M (list Post))
    (posts_post_comment : string -> string -> CommentIn -> M Comment)
    (credentials n p_id : string) (file : UploadFile) (p : PostIn)
    (c : CommentIn) (db : Database) (u : User) :
  decode_token credentials = Ok n →
  find_one (by_username n) (users db) = Some u →
  post.delete_post Deleted decode_token posts_delete p_id credentials db =
    (match posts_delete p_id (_id u) db with
     | (Ok _, db') => (Ok tt, db')
     | (Raise e, db') => (Raise e, db')
     end) ∧
  post.get_feed decode_token posts_get_feed credentials db =
    posts_get_feed (_id u) db ∧
  post.get_profile_feed decode_token posts_get_profile_feed credentials db =
    posts_get_profile_feed (_id u) db ∧
  post.create_comment CommentIn decode_token posts_post_comment p_id
    credentials c db = posts_post_comment p_id (_id u) c db ∧
  (∀ file_id db1 u1,
     posts_get_file_id file db = (Ok file_id, db1) →
     find_one (by_username n) (users db1) = Some u1 →
     post.create UploadFile PostIn decode_token posts_get_file_id
       posts_create credentials file p db =
       posts_create (_id u1) file_id p db1).
Proof.
  intros Hd Hu.
  unfold post.delete_post, post.get_feed, post.get_profile_feed,
    post.create_comment, post.create.
  repeat split.
  1-4: unfold bind at 1;
       rewrite (get_current_user_known _ _ _ _ _ Hd Hu); simpl;
       unfold bind, ret;
       try (by destruct (posts_delete p_id (_id u) db) as [[d|e] db']).
  intros file_id db1 u1 Hf Hu1. unfold bind at 1. rewrite Hf.
  unfold bind at 1. by rewrite (get_current_user_known _ _ _ _ _ Hd Hu1).
Qed.

(** X23: the bare [except] of [signup] turns every failure after the
    username check into the same answer: when the hasher raises, or the new
    identifier is already in use, [signup] hands back the 401 "Failed to
    signup user" and stores nothing. *)
Theorem signup_swallows_failures (settings : Settings)
    (encode_password : string -> result string) (User_defaults : User)
    (n password inserted_id : string) (now1 now2 : datetime)
    (db : Database) :
  n ∉ username <$> users db →
  (∃ e, encode_password password = Raise e) ∨
  inserted_id ∈ _id <$> users db →
  signup settings encode_password User_defaults n password inserted_id
    now1 now2 db =
    (Ok (refused (HTTPException HTTP_401_UNAUTHORIZED
                    "Failed to signup user")), db).
Proof. intros Hn Hfail. by apply signup_failed. Qed.

(** ** The further properties at the sample database *)

Lemma get_all_prefix_witness :
  (0 < 2) ∧
  ∃ l, get_all 2 0 sample_db = (Ok l, sample_db) ∧
       l `prefix_of` users sample_db ∧
       l = take (Z.to_nat 2) (users sample_db) ∧
       length l = Nat.min (Z.to_nat 2) (length (users sample_db)).
Proof.
  assert (H : 0 < 2) by lia. split; [exact H|].
  destruct (get_all_prefix 2 0 sample_db) as (l & H1 & H2 & H3 & _).
  exists l. split; [exact H1|]. split; [exact H2|]. exact (H3 H).
Defined.

Lemma get_by_id_stored_witness :
  ("u2" ∈ _id <$> users sample_db) ∧
  ∃ u before after,
    get_by_id "u2" sample_db = (Ok (Some u), sample_db) ∧
    _id u = "u2" ∧
    users sample_db = before ++ u :: after ∧
    ∀ x, x ∈ before → _id x ≠ "u2".
Proof.
  assert (H : "u2" ∈ _id <$> users sample_db)
    by (apply (bool_decide_unpack _); vm_compute; exact I).
  split; [exact H|]. exact (get_by_id_stored "u2" sample_db H).
Defined.

Lemma get_by_email_found_or_404_witness :
  let db := (update "u1" (mkUserIn None None None None None (Some "al@ice"))
               sample_db).2 in
  (Some "al@ice" ∈ email <$> users db) ∧
  (Some "bo@b" ∉ email <$> users db) ∧
  (∃ u, get_by_email "al@ice" db = (Ok (Some u), db) ∧
        email u = Some "al@ice" ∧ u ∈ users db) ∧
  get_by_email "bo@b" db =
    (Raise (HTTPException HTTP_404_NOT_FOUND
              ("User with email: " +:+ "bo@b" +:+ " not found")), db).
Proof.
  intros db.
  assert (H1 : Some "al@ice" ∈ email <$> users db)
    by (apply (bool_decide_unpack _); vm_compute; exact I).
  assert (H2 : Some "bo@b" ∉ email <$> users db)
    by (apply (bool_decide_unpack _); vm_compute; exact I).
  split; [exact H1|]. split; [exact H2|]. split.
  - exact (proj1 (get_by_email_found_or_404 "al@ice" db) H1).
  - exact (proj2 (get_by_email_found_or_404 "bo@b" db) H2).
Defined.

Lemma edits_of_absent_id_store_nothing_witness :
  ("u7" ∉ _id <$> users sample_db) ∧
  (update_username "u7" "eve" sample_db).1 = Ok None ∧
  users (update_username "u7" "eve" sample_db).2 = users sample_db ∧
  (update_bio "u7" "hello" sample_db).1 = Ok None ∧
  users (update_bio "u7" "hello" sample_db).2 = users sample_db.
Proof.
  assert (H : "u7" ∉ _id <$> users sample_db)
    by (apply (bool_decide_unpack _); vm_compute; exact I).
  split; [exact H|].
  destruct (edits_of_absent_id_store_nothing "u7"
              (mkUserIn None None None None None None) "a" "b" "eve" "hello"
              sample_db H) as (_ & _ & (H3 & H3' & _) & (H4 & H4' & _)).
  split; [exact H3|]. split; [exact H3'|]. split; [exact H4|]. exact H4'.
Defined.

Lemma narrow_edits_write_their_fields_witness :
  find_one (by_id "u1") (users sample_db) = Some alice ∧
  ∃ u' : User,
    (update_username "u1" "alicia" sample_db).1 = Ok (Some u') ∧
    find_one (by_id "u1") (users (update_username "u1" "alicia" sample_db).2)
      = Some u' ∧
    (username u' = "alicia" ∧ name u' = name alice ∧
     surname u' = surname alice ∧ bio u' = bio alice) ∧
    untouched_by_narrow_edits alice u'.
Proof.
  split; [reflexivity|].
  destruct (narrow_edits_write_their_fields "u1" "Al" "Ice" "alicia" "hi"
              sample_db alice eq_refl)
    as (_ & (u' & H1 & H2 & H3 & H4 & _) & _).
  exists u'. split; [exact H1|]. split; [exact H2|]. split; [exact H3|].
  exact H4.
Defined.

Lemma update_username_can_duplicate_witness :
  "u1" ≠ "u2" ∧
  find_one (by_id "u1") (users sample_db) = Some alice ∧
  find_one (by_id "u2") (users sample_db) = Some bob ∧
  let db' := (update_username "u1" (username bob) sample_db).2 in
  ∃ ui' : User,
    find_one (by_id "u1") (users db') = Some ui' ∧
    find_one (by_id "u2") (users db') = Some bob ∧
    username ui' = username bob ∧
    ¬ NoDup (username <$> users db').
Proof.
  assert (H : "u1" ≠ "u2") by discriminate.
  split; [exact H|]. split; [reflexivity|]. split; [reflexivity|].
  exact (update_username_can_duplicate "u1" "u2" sample_db alice bob H
           eq_refl eq_refl).
Defined.

Lemma delete_at_most_one_witness :
  ("u7" ∉ _id <$> users sample_db) ∧
  ("u2" ∈ _id <$> users sample_db) ∧
  NoDup (_id <$> users sample_db) ∧
  users (delete "u7" sample_db).2 = users sample_db ∧
  S (length (users (delete "u2" sample_db).2)) = length (users sample_db) ∧
  users (delete "u2" (delete "u2" sample_db).2).2 =
    users (delete "u2" sample_db).2.
Proof.
  assert (H1 : "u7" ∉ _id <$> users sample_db)
    by (apply (bool_decide_unpack _); vm_compute; exact I).
  assert (H2 : "u2" ∈ _id <$> users sample_db)
    by (apply (bool_decide_unpack _); vm_compute; exact I).
  split; [exact H1|]. split; [exact H2|].
  split; [exact sample_ids_unique|].
  destruct (delete_at_most_one "u7" sample_db) as (_ & Ha & _).
  destruct (delete_at_most_one "u2" sample_db) as (_ & _ & Hb & Hc).
  split; [exact (Ha H1)|]. split; [exact (Hb H2)|].
  exact (Hc sample_ids_unique).
Defined.

Lemma update_profile_image_failures_witness :
  let db := (update_profile_image sample_settings sample_ObjectId
               "u1" "not-an-object-id" sample_db).2 in
  ("u7" ∉ _id <$> users db) ∧
  (∃ u, find_one (by_id "u1") (users db) = Some u ∧
        profile_image u = "not-an-object-id" ∧
        profile_image u ≠ DEFAULT_PROFILE_IMAGE sample_settings ∧
        sample_ObjectId (profile_image u) = Raise InvalidId) ∧
  update_profile_image sample_settings sample_ObjectId "u7" "f" db =
    (Raise TypeError, db) ∧
  update_profile_image sample_settings sample_ObjectId "u1"
    "0123456789abcdef01234567" db = (Raise InvalidId, db).
Proof.
  intros db.
  assert (H1 : "u7" ∉ _id <$> users db)
    by (apply (bool_decide_unpack _); vm_compute; exact I).
  assert (H2 : "not-an-object-id" ≠ DEFAULT_PROFILE_IMAGE sample_settings)
    by discriminate.
  split; [exact H1|]. split.
  - eexists. split; [reflexivity|]. split; [reflexivity|].
    split; [exact H2 | reflexivity].
  - destruct (update_profile_image_failures sample_settings sample_ObjectId
                "u7" "f" db) as [Ha _].
    destruct (update_profile_image_failures sample_settings sample_ObjectId
                "u1" "0123456789abcdef01234567" db) as [_ Hb].
    split; [exact (Ha H1)|].
    exact (Hb _ InvalidId eq_refl H2 eq_refl).
Defined.

Lemma signup_keeps_accounts_unique_witness :
  NoDup (username <$> users sample_db) ∧
  NoDup (_id <$> users sample_db) ∧
  let db' := (signup sample_settings sample_encode_password sample_defaults
                "dave" "secret" "u4" 70 71 sample_db).2 in
  users sample_db `prefix_of` users db' ∧
  NoDup (username <$> users db') ∧
  NoDup (_id <$> users db').
Proof.
  assert (H1 : NoDup (username <$> users sample_db))
    by (apply (bool_decide_unpack _); vm_compute; exact I).
  split; [exact H1|]. split; [exact sample_ids_unique|].
  destruct (signup_keeps_accounts_unique sample_settings
              sample_encode_password sample_defaults "dave" "secret" "u4"
              70 71 sample_db) as (Ha & Hb & Hc).
  split; [exact Ha|]. split; [exact (Hb H1) | exact (Hc sample_ids_unique)].
Defined.

Lemma login_outcomes_witness :
  ("dave" ∉ username <$> users sample_db) ∧
  ("bob" ∈ username <$> users sample_db) ∧
  login sample_verify_password "dave" "secret" sample_db =
    (Ok (rejected (HTTPException HTTP_401_UNAUTHORIZED "Invalid username")),
     sample_db) ∧
  ∃ u before after,
    users sample_db = before ++ u :: after ∧ username u = "bob" ∧
    (∀ x, x ∈ before → username x ≠ "bob") ∧
    login sample_verify_password "bob" "secret" sample_db =
      (match sample_verify_password "secret" (hashed_password u) with
       | Ok true => Ok (logged_in (Some u))
       | Ok false =>
           Ok (rejected (HTTPException HTTP_401_UNAUTHORIZED
                           "Invalid password"))
       | Raise e => Raise e
       end, sample_db).
Proof.
  assert (H1 : "dave" ∉ username <$> users sample_db)
    by (apply (bool_decide_unpack _); vm_compute; exact I).
  assert (H2 : "bob" ∈ username <$> users sample_db)
    by (apply (bool_decide_unpack _); vm_compute; exact I).
  split; [exact H1|]. split; [exact H2|]. split.
  - exact (proj1 (login_outcomes sample_verify_password "dave" "secret"
                    sample_db) H1).
  - exact (proj2 (login_outcomes sample_verify_password "bob" "secret"
                    sample_db) H2).
Defined.

Lemma signup_then_login_witness :
  ("dave" ∉ username <$> users sample_db) ∧
  ("u4" ∉ _id <$> users sample_db) ∧
  sample_encode_password "secret" = Ok "hashed:secret" ∧
  sample_verify_password "secret" "hashed:secret" = Ok true ∧
  let r := signup sample_settings sample_encode_password sample_defaults
             "dave" "secret" "u4" 70 71 sample_db in
  ∃ u : User,
    r.1 = Ok (created (Some u)) ∧
    login sample_verify_password "dave" "secret" r.2 =
      (Ok (logged_in (Some u)), r.2).
Proof.
  assert (H1 : "dave" ∉ username <$> users sample_db)
    by (apply (bool_decide_unpack _); vm_compute; exact I).
  assert (H2 : "u4" ∉ _id <$> users sample_db)
    by (apply (bool_decide_unpack _); vm_compute; exact I).
  split; [exact H1|]. split; [exact H2|]. split; [reflexivity|].
  split; [reflexivity|].
  exact (signup_then_login sample_settings sample_encode_password
           sample_verify_password sample_defaults "dave" "secret" "u4"
           "hashed:secret" 70 71 sample_db H1 H2 eq_refl eq_refl).
Defined.

Lemma get_current_user_outcomes_witness :
  sample_decode_token "" = Raise (HTTPException 401 "Invalid token") ∧
  sample_decode_token "dave" = Ok "dave" ∧
  ("dave" ∉ username <$> users sample_db) ∧
  sample_decode_token "carol" = Ok "carol" ∧
  ("carol" ∈ username <$> users sample_db) ∧
  get_current_user sample_decode_token "" sample_db =
    (Raise (HTTPException 401 "Invalid token"), sample_db) ∧
  get_current_user sample_decode_token "dave" sample_db =
    (Ok None, sample_db) ∧
  ∃ u, get_current_user sample_decode_token "carol" sample_db =
         (Ok (Some u), sample_db) ∧
       username u = "carol" ∧ u ∈ users sample_db.
Proof.
  assert (H1 : "dave" ∉ username <$> users sample_db)
    by (apply (bool_decide_unpack _); vm_compute; exact I).
  assert (H2 : "carol" ∈ username <$> users sample_db)
    by (apply (bool_decide_unpack _); vm_compute; exact I).
  split; [reflexivity|]. split; [reflexivity|]. split; [exact H1|].
  split; [reflexivity|]. split; [exact H2|].
  destruct (get_current_user_outcomes sample_decode_token "" sample_db)
    as (Ha & _ & _).
  destruct (get_current_user_outcomes sample_decode_token "dave" sample_db)
    as (_ & Hb & _).
  destruct (get_current_user_outcomes sample_decode_token "carol" sample_db)
    as (_ & _ & Hc).
  split; [exact (Ha _ eq_refl)|]. split; [exact (Hb _ eq_refl H1)|].
  exact (Hc _ eq_refl H2).
Defined.

Lemma subscribe_then_unsubscribe_restores_witness :
  find_one (by_id "u3") (users sample_db) = Some carol ∧
  find_one (by_id "u1") (users sample_db) = Some alice ∧
  ("u1" ∉ subscriptions carol) ∧ ("u3" ∉ subscribers alice) ∧
  let db2 := (unsubsribe "u3" "u1" (subscribe "u3" "u1" sample_db).2).2 in
  users db2 = users sample_db ∧ posts db2 = posts sample_db ∧
  comments db2 = comments sample_db.
Proof.
  assert (H1 : "u1" ∉ subscriptions carol)
    by (apply (bool_decide_unpack _); vm_compute; exact I).
  assert (H2 : "u3" ∉ subscribers alice)
    by (apply (bool_decide_unpack _); vm_compute; exact I).
  split; [reflexivity|]. split; [reflexivity|]. split; [exact H1|].
  split; [exact H2|].
  exact (subscribe_then_unsubscribe_restores "u3" "u1" sample_db carol alice
           eq_refl eq_refl H1 H2).
Defined.

Lemma subscribe_of_absent_user_witness :
  ("u7" ∉ _id <$> users sample_db) ∧
  find_one (by_id "u2") (users sample_db) = Some bob ∧
  let db1 := (subscribe "u7" "u2" sample_db).2 in
  ∃ b1 l,
    find_one (by_id "u7") (users db1) = None ∧
    find_one (by_id "u2") (users db1) = Some b1 ∧
    subscribers b1 = subscribers bob ++ ["u7"] ∧
    subscriptions b1 = subscriptions bob ∧
    get_subscribers "u2" db1 = (Ok (l ++ [None]), db1) ∧
    length l = length (subscribers bob).
Proof.
  assert (H1 : "u7" ∉ _id <$> users sample_db)
    by (apply (bool_decide_unpack _); vm_compute; exact I).
  split; [exact H1|]. split; [reflexivity|].
  exact (subscribe_of_absent_user "u7" "u2" sample_db bob H1 eq_refl).
Defined.

Lemma delete_leaves_dangling_subscriptions_witness :
  NoDup (_id <$> users sample_db) ∧ "u1" ≠ "u2" ∧
  find_one (by_id "u1") (users sample_db) = Some alice ∧
  let db' := (delete "u2" sample_db).2 in
  ∃ res,
    find_one (by_id "u1") (users db') = Some alice ∧
    get_subscriptions "u1" db' = (Ok res, db') ∧
    length res = length (subscriptions alice) ∧
    ∀ (k : nat) (i : string), subscriptions alice !! k = Some i →
      res !! k = Some (if decide (i = "u2") then None
                       else find_one (by_id i) (users sample_db)).
Proof.
  assert (H : "u1" ≠ "u2") by discriminate.
  split; [exact sample_ids_unique|]. split; [exact H|].
  split; [reflexivity|].
  exact (delete_leaves_dangling_subscriptions "u1" "u2" sample_db alice
           sample_ids_unique H eq_refl).
Defined.

Lemma get_subs_of_absent_user_witness :
  ("u7" ∉ _id <$> users sample_db) ∧
  get_subscribers "u7" sample_db = (Raise TypeError, sample_db) ∧
  get_subscriptions "u7" sample_db = (Raise TypeError, sample_db).
Proof.
  assert (H1 : "u7" ∉ _id <$> users sample_db)
    by (apply (bool_decide_unpack _); vm_compute; exact I).
  split; [exact H1|]. exact (get_subs_of_absent_user "u7" sample_db H1).
Defined.

Lemma set_like_with_a_missing_party_witness :
  ("u7" ∉ _id <$> users sample_db) ∧
  find_one (by_post_id "p1") (posts sample_db) = Some p1 ∧
  ("p7" ∉ post_id <$> posts sample_db) ∧
  find_one (by_id "u3") (users sample_db) = Some carol ∧
  (∃ p', (set_like "p1" "u7" sample_db).1 = Ok (Some p') ∧
         likes p' = likes p1 + 1 ∧
         users (set_like "p1" "u7" sample_db).2 = users sample_db) ∧
  (∃ u', (set_like "p7" "u3" sample_db).1 = Ok None ∧
         posts (set_like "p7" "u3" sample_db).2 = posts sample_db ∧
         find_one (by_id "u3") (users (set_like "p7" "u3" sample_db).2)
           = Some u' ∧
         liked_posts u' = liked_posts carol ++ ["p7"]).
Proof.
  assert (H1 : "u7" ∉ _id <$> users sample_db)
    by (apply (bool_decide_unpack _); vm_compute; exact I).
  assert (H2 : "p7" ∉ post_id <$> posts sample_db)
    by (apply (bool_decide_unpack _); vm_compute; exact I).
  split; [exact H1|]. split; [reflexivity|]. split; [exact H2|].
  split; [reflexivity|]. split.
  - exact (proj1 (set_like_with_a_missing_party "p1" "u7" sample_db)
             H1 p1 eq_refl).
  - exact (proj2 (set_like_with_a_missing_party "p7" "u3" sample_db)
             H2 carol eq_refl).
Defined.

Lemma like_twice_unlike_once_witness :
  find_one (by_id "u3") (users sample_db) = Some carol ∧
  find_one (by_post_id "p2") (posts sample_db) = Some p2 ∧
  let db3 := (unset_like "p2" "u3"
                (set_like "p2" "u3" (set_like "p2" "u3" sample_db).2).2).2 in
  ∃ (p3 : Post) (u3 : User),
    find_one (by_post_id "p2") (posts db3) = Some p3 ∧
    likes p3 = likes p2 + 1 ∧
    find_one (by_id "u3") (users db3) = Some u3 ∧
    ("p2" ∉ liked_posts u3).
Proof.
  split; [reflexivity|]. split; [reflexivity|].
  exact (like_twice_unlike_once "p2" "u3" sample_db carol p2
           eq_refl eq_refl).
Defined.

Lemma signup_swallows_failures_witness :
  ("dave" ∉ username <$> users sample_db) ∧
  sample_encode_password "" = Raise PasswordError ∧
  ("u2" ∈ _id <$> users sample_db) ∧
  signup sample_settings sample_encode_password sample_defaults
    "dave" "" "u4" 70 71 sample_db =
    (Ok (refused (HTTPException HTTP_401_UNAUTHORIZED
                    "Failed to signup user")), sample_db) ∧
  signup sample_settings sample_encode_password sample_defaults
    "dave" "secret" "u2" 70 71 sample_db =
    (Ok (refused (HTTPException HTTP_401_UNAUTHORIZED
                    "Failed to signup user")), sample_db).
Proof.
  assert (H1 : "dave" ∉ username <$> users sample_db)
    by (apply (bool_decide_unpack _); vm_compute; exact I).
  assert (H2 : "u2" ∈ _id <$> users sample_db)
    by (apply (bool_decide_unpack _); vm_compute; exact I).
  split; [exact H1|]. split; [reflexivity|]. split; [exact H2|]. split.
  - exact (signup_swallows_failures sample_settings sample_encode_password
             sample_defaults "dave" "" "u4" 70 71 sample_db H1
             (or_introl (ex_intro _ PasswordError eq_refl))).
  - exact (signup_swallows_failures sample_settings sample_encode_password
             sample_defaults "dave" "secret" "u2" 70 71 sample_db H1
             (or_intror H2)).
Defined.

Lemma endpoints_with_unresolved_user_witness :
  sample_decode_token "dave" = Ok "dave" ∧
  ("dave" ∉ username <$> users sample_db) ∧
  post.delete_post string sample_decode_token sample_posts_delete "p1" "dave"
    sample_db = (Raise TypeError, sample_db) ∧
  post.get_feed sample_decode_token sample_posts_feed "dave" sample_db =
    (Raise TypeError, sample_db) ∧
  post.get_profile_feed sample_decode_token sample_posts_feed "dave"
    sample_db = (Raise TypeError, sample_db) ∧
  post.create_comment string sample_decode_token sample_posts_post_comment
    "p1" "dave" "hello" sample_db = (Raise TypeError, sample_db) ∧
  post.create (list Byte.byte) string sample_decode_token
    sample_posts_get_file_id sample_posts_create "dave" [] "caption"
    sample_db = (Raise TypeError, sample_db).
Proof.
  assert (H1 : "dave" ∉ username <$> users sample_db)
    by (apply (bool_decide_unpack _); vm_compute; exact I).
  split; [reflexivity|]. split; [exact H1|].
  destruct (endpoints_with_unresolved_user sample_decode_token
              sample_posts_get_file_id sample_posts_create
              sample_posts_delete sample_posts_feed sample_posts_feed
              sample_posts_post_comment "dave" "dave" "p1" [] "caption"
              "hello" sample_db eq_refl H1) as (Ha & Hb & Hc & Hd & He).
  split; [exact Ha|]. split; [exact Hb|]. split; [exact Hc|].
  split; [exact Hd|]. exact (He "img-9" sample_db eq_refl eq_refl).
Defined.

Lemma endpoints_act_for_the_token_user_witness :
  sample_decode_token "alice" = Ok "alice" ∧
  find_one (by_username "alice") (users sample_db) = Some alice ∧
  sample_posts_delete "p2" "u1" sample_db = (Ok "deleted", sample_db) ∧
  post.delete_post string sample_decode_token sample_posts_delete "p2"
    "alice" sample_db = (Ok tt, sample_db) ∧
  post.get_profile_feed sample_decode_token sample_posts_feed "alice"
    sample_db = sample_posts_feed "u1" sample_db ∧
  post.create (list Byte.byte) string sample_decode_token
    sample_posts_get_file_id sample_posts_create "alice" [] "caption"
    sample_db = sample_posts_create "u1" "img-9" "caption" sample_db.
Proof.
  split; [reflexivity|]. split; [reflexivity|].
  destruct (endpoints_act_for_the_token_user sample_decode_token
              sample_posts_get_file_id sample_posts_create
              sample_posts_delete sample_posts_feed sample_posts_feed
              sample_posts_post_comment "alice" "alice" "p2" [] "caption"
              "hello" sample_db alice eq_refl eq_refl)
    as (Ha & _ & Hc & _ & He).
  split; [reflexivity|]. split; [exact Ha|]. split; [exact Hc|].
  exact (He "img-9" sample_db alice eq_refl eq_refl).
Defined.
